(** * Session claims over primitive values

    A shallow embedding of
    [supertokens_python/recipe/session/claim_base_classes/primitive_claim.py]:
    the [PrimitiveClaim] payload accessors and mutators, the two validators
    [HasValueSCV] and [HasFreshValueSCV], and the validator factory
    [PrimitiveClaimValidators]. *)

From Stdlib Require Import ZArith.
From Stdlib Require Import Floats.SpecFloat.
From stdpp Require Import gmap strings list fin_maps functions.

Set Warnings "-register-all".
Local Open Scope Z_scope.

(** ** Python values *)

(** The values a session payload can hold.  A Python [float] is an IEEE 754
    binary64 number, kept as a [spec_float]: a zero, an infinity, NaN, or
    [(-1)^s * m * 2^e].  The doubles are the terms that satisfy
    [valid_binary 53 1024]; the arithmetic below yields only such terms. *)
Inductive pyval :=
  | VNone
  | VBool (b : bool)
  | VInt (n : Z)
  | VFloat (f : spec_float)
  | VStr (s : string)
  | VList (l : list pyval)
  | VDict (d : gmap string pyval).

(** [JSONObject = Dict[str, Any]] *)
Abbreviation JSONObject := (gmap string pyval).

Inductive exn :=
  | AttributeError
  | KeyError
  | TypeError
  | AssertionError
  | OverflowError.

(** ** Numbers *)

(** The precision and the exponent bound of binary64. *)
Definition prec : Z := 53.
Definition emax : Z := 1024.

(** An [int] or a [float]; [bool] is a subclass of [int]. *)
Inductive number :=
  | NInt (n : Z)
  | NFloat (f : spec_float).

(** Numeric view of a value. *)
Definition as_number (x : pyval) : option number :=
  match x with
  | VBool b => Some (NInt (Z.b2z b))
  | VInt n => Some (NInt n)
  | VFloat f => Some (NFloat f)
  | _ => None
  end.

(** Python compares an [int] with a [float] by their exact values; there is
    no order with NaN. *)
Definition compare_int_float (a : Z) (f : spec_float) : option comparison :=
  match f with
  | S754_nan => None
  | S754_infinity s => Some (if s then Gt else Lt)
  | S754_zero _ => Some (a ?= 0)
  | S754_finite s m e =>
      let v := cond_Zopp s (Zpos m) in
      Some (match e with
            | Zneg k => a * 2 ^ Zpos k ?= v
            | _ => a ?= v * 2 ^ e
            end)
  end.

Definition num_compare (a b : number) : option comparison :=
  match a, b with
  | NInt m, NInt n => Some (m ?= n)
  | NFloat f, NFloat g => SFcompare f g
  | NInt m, NFloat g => compare_int_float m g
  | NFloat f, NInt n => option_map CompOpp (compare_int_float n f)
  end.

(** [a == b] and [a < b] on numbers. *)
Definition num_eqb (a b : number) : bool :=
  match a, b with
  | NInt m, NInt n => m =? n
  | _, _ => match num_compare a b with
            | Some Eq => true
            | _ => false
            end
  end.

Definition num_ltb (a b : number) : bool :=
  match a, b with
  | NInt m, NInt n => m <? n
  | _, _ => match num_compare a b with
            | Some Lt => true
            | _ => false
            end
  end.

(** A result of float arithmetic that Python turns into [OverflowError]. *)
Definition finite_or_overflow (f : spec_float) : option spec_float :=
  match f with
  | S754_infinity _ => None
  | _ => Some f
  end.

(** [float(n)]: the double nearest to [n], ties to even; [None] stands for
    [OverflowError], raised when [n] is beyond the range of a double. *)
Definition float_of_int (n : Z) : option spec_float :=
  finite_or_overflow (binary_normalize prec emax n 0 false).

(** The int [n] as an exact, not yet rounded, binary number. *)
Definition exact_int (n : Z) : spec_float :=
  match n with
  | Z0 => S754_zero false
  | Zpos p => S754_finite false p 0
  | Zneg p => S754_finite true p 0
  end.

(** [1000.0] *)
Definition float_1000 : spec_float := binary_normalize prec emax 1000 0 false.

(** [n / 1000] for an int [n]: true division gives the double nearest to the
    exact quotient, ties to even; [None] stands for [OverflowError], raised
    when the quotient is beyond the range of a double. *)
Definition int_div1000 (n : Z) : option spec_float :=
  finite_or_overflow (SFdiv prec emax (exact_int n) (exact_int 1000)).

(** Python's [==]. *)
Fixpoint py_eq (x y : pyval) {struct x} : bool :=
  match x, y with
  | VNone, VNone => true
  | VStr s, VStr s' => bool_decide (s = s')
  | VList l, VList l' =>
      (fix go (l : list pyval) (l' : list pyval) {struct l} : bool :=
         match l, l' with
         | [], [] => true
         | a :: l, b :: l' => py_eq a b && go l l'
         | _, _ => false
         end) l l'
  | VDict d, VDict d' =>
      map_fold (fun _ (b : bool) acc => b && acc) true
        (merge (fun a b =>
                  match a, b with
                  | Some a, Some b => Some (py_eq a b)
                  | None, None => None
                  | _, _ => Some false
                  end) d d')
  | _, _ =>
      match as_number x, as_number y with
      | Some a, Some b => num_eqb a b
      | _, _ => false
      end
  end.

(** Python's [!=]. *)
Definition py_ne (x y : pyval) : bool := negb (py_eq x y).

(** Truth value testing, as used by [or]. *)
Definition truthy (x : pyval) : bool :=
  match x with
  | VNone => false
  | VBool b => b
  | VInt n => negb (n =? 0)
  | VFloat f => match f with
                | S754_zero _ => false
                | _ => true
                end
  | VStr s => negb (bool_decide (s = EmptyString))
  | VList l => negb (bool_decide (l = []))
  | VDict d => negb (bool_decide (d = ∅))
  end.

(** A dict display [{k1: v1, ...}] with distinct keys. *)
Definition dict_display (items : list (string * pyval)) : pyval :=
  VDict (list_to_map items).

(** ** The store and the clock *)

(** Payloads are mutable dicts that the mutators change in place.  Each has
    an identity [loc]; the store gives the current content of every dict.
    The values held inside a payload are never mutated by this program and
    are kept as plain values. *)
Definition loc := nat.

(** [clock] is the sequence of readings the system clock will deliver and
    [ticks] the number of readings already taken. *)
Record world := World {
  heap : loc -> JSONObject;
  clock : nat -> Z;
  ticks : nat;
}.

Definition set_heap (h : loc -> JSONObject) (w : world) : world :=
  World h (clock w) (ticks w).

Definition tick (w : world) : world :=
  World (heap w) (clock w) (S (ticks w)).

(** A computation either returns a value or raises, in both cases leaving
    a world behind. *)
Inductive outcome (A : Type) :=
  | Ret (a : A) (w : world)
  | Raise (e : exn) (w : world).
Arguments Ret {A} a w.
Arguments Raise {A} e w.

Definition M (A : Type) := world -> outcome A.

Definition ret {A} (a : A) : M A := fun w => Ret a w.
Definition raise {A} (e : exn) : M A := fun w => Raise e w.
Definition bind {A B} (m : M A) (f : A -> M B) : M B :=
  fun w => match m w with
           | Ret a w' => f a w'
           | Raise e w' => Raise e w'
           end.

#[global] Instance M_ret : MRet M := @ret.
#[global] Instance M_bind : MBind M := fun A B f m => bind m f.

(** Modelled from the spec: [get_timestamp_ms] of [supertokens_python.utils],
    the clock utility that "supplies current time as milliseconds since
    epoch".  Every call takes the next reading of the clock. *)
Definition get_timestamp_ms : M Z :=
  fun w => Ret (clock w (ticks w)) (tick w).

(** ** Operations on dicts and values *)

Definition user_context := option JSONObject.

(** [payload[k]] *)
Definition dict_getitem (payload : loc) (k : string) : M pyval :=
  fun w => match heap w payload !! k with
           | Some v => Ret v w
           | None => Raise KeyError w
           end.

(** [payload.get(k, default)] *)
Definition dict_get (payload : loc) (k : string) (default : pyval) : M pyval :=
  fun w => match heap w payload !! k with
           | Some v => Ret v w
           | None => Ret default w
           end.

(** [payload[k] = v] *)
Definition dict_setitem (payload : loc) (k : string) (v : pyval) : M unit :=
  fun w => Ret tt (set_heap (<[payload := <[k := v]> (heap w payload)]> (heap w)) w).

(** [del payload[k]] *)
Definition dict_delitem (payload : loc) (k : string) : M unit :=
  fun w => match heap w payload !! k with
           | Some _ =>
               Ret tt (set_heap (<[payload := delete k (heap w payload)]> (heap w)) w)
           | None => Raise KeyError w
           end.

(** [x.get(k)]: only dicts have the method. *)
Definition py_get (x : pyval) (k : string) : M pyval :=
  match x with
  | VDict d => ret (default VNone (d !! k))
  | _ => raise AttributeError
  end.

(** [x[k]] for a string [k]. *)
Definition py_getitem (x : pyval) (k : string) : M pyval :=
  match x with
  | VDict d => match d !! k with
               | Some v => ret v
               | None => raise KeyError
               end
  | _ => raise TypeError
  end.

(** [x < n] and [x > n] for an int [n]. *)
Definition py_lt (x : pyval) (n : Z) : M bool :=
  match as_number x with
  | Some a => ret (num_ltb a (NInt n))
  | None => raise TypeError
  end.

Definition py_gt (x : pyval) (n : Z) : M bool :=
  match as_number x with
  | Some a => ret (num_ltb (NInt n) a)
  | None => raise TypeError
  end.

(** [n - x] for an int [n].  With a float [x], [n] is first converted to a
    float, and the difference is rounded. *)
Definition py_rsub (n : Z) (x : pyval) : M pyval :=
  match x with
  | VBool b => ret (VInt (n - Z.b2z b))
  | VInt m => ret (VInt (n - m))
  | VFloat f =>
      match float_of_int n with
      | Some g => ret (VFloat (SFsub prec emax g f))
      | None => raise OverflowError
      end
  | _ => raise TypeError
  end.

(** [x / 1000], true division. *)
Definition py_div1000 (x : pyval) : M pyval :=
  match x with
  | VBool b =>
      match int_div1000 (Z.b2z b) with
      | Some f => ret (VFloat f)
      | None => raise OverflowError
      end
  | VInt m =>
      match int_div1000 m with
      | Some f => ret (VFloat f)
      | None => raise OverflowError
      end
  | VFloat f => ret (VFloat (SFdiv prec emax f float_1000))
  | _ => raise TypeError
  end.

(** [x or y] *)
Definition py_or (x y : pyval) : pyval := if truthy x then x else y.

(** [x is None] *)
Definition is_none (x : pyval) : bool :=
  match x with
  | VNone => true
  | _ => false
  end.

(** ** Claims *)

Module SessionClaim.

(** The methods that [PrimitiveClaim] adds to [SessionClaim]; a subclass
    may override them. *)
Record primitive_methods := {
  get_last_refetch_time : loc -> user_context -> M pyval;
}.

(** A claim object as the validators see it: its key, its (dynamically
    dispatched) value accessor, and, exactly when the object is an
    instance of [PrimitiveClaim], the methods of that class. *)
Record t := {
  key : string;
  get_value_from_payload : loc -> user_context -> M pyval;
  as_PrimitiveClaim : option primitive_methods;
}.

(** [isinstance(claim, PrimitiveClaim)] *)
Definition isinstance_PrimitiveClaim (claim : t) : bool :=
  match as_PrimitiveClaim claim with
  | Some _ => true
  | None => false
  end.

End SessionClaim.

(** The methods of [PrimitiveClaim].  Each reads only [self.key], passed as
    [self_key], and discards its [user_context].  [fetch_value] takes no part
    in what follows and is left out. *)
Module PrimitiveClaim.

Definition add_to_payload_
    (self_key : string) (payload : loc) (value : pyval) (_ : user_context)
    : M loc :=
  t ← get_timestamp_ms;
  dict_setitem payload self_key (dict_display [("v", value); ("t", VInt t)]%string);;
  mret payload.

Definition remove_from_payload_by_merge_
    (self_key : string) (payload : loc) (_ : user_context) : M loc :=
  dict_setitem payload self_key VNone;;
  mret payload.

Definition remove_from_payload
    (self_key : string) (payload : loc) (_ : user_context) : M loc :=
  dict_delitem payload self_key;;
  mret payload.

Definition get_value_from_payload
    (self_key : string) (payload : loc) (_ : user_context) : M pyval :=
  entry ← dict_get payload self_key (dict_display []);
  py_get entry "v".

Definition get_last_refetch_time
    (self_key : string) (payload : loc) (_ : user_context) : M pyval :=
  entry ← dict_get payload self_key (dict_display []);
  py_get entry "t".

(** The object built by [PrimitiveClaim(key)]. *)
Definition new (key : string) : SessionClaim.t :=
  {| SessionClaim.key := key;
     SessionClaim.get_value_from_payload := get_value_from_payload key;
     SessionClaim.as_PrimitiveClaim :=
       Some {| SessionClaim.get_last_refetch_time :=
                 get_last_refetch_time key |} |}.

End PrimitiveClaim.

(** ** Validators *)

(** [{"isValid": False, "reason": {...}}] *)
Definition invalid (reason : list (string * pyval)) : pyval :=
  dict_display [("isValid", VBool false); ("reason", dict_display reason)]%string.

Module HasValueSCV.

(** [params] is [{"val": val}]; the dict is kept as its entry. *)
Record t := init {
  id : string;
  claim : SessionClaim.t;
  val : pyval;
}.

Definition should_refetch (self : t) (payload : loc) (uc : user_context) : M bool :=
  x ← SessionClaim.get_value_from_payload (claim self) payload uc;
  mret (is_none x).

Definition validate (self : t) (payload : loc) (uc : user_context) : M pyval :=
  let val := val self in
  claim_val ← SessionClaim.get_value_from_payload (claim self) payload uc;
  let is_valid := py_eq claim_val val in
  if is_valid then mret (dict_display [("isValid", VBool true)]%string)
  else mret (invalid [("message", VStr "wrong value");
                      ("expectedValue", val);
                      ("actualValue", claim_val)]%string).

End HasValueSCV.

Module HasFreshValueSCV.

(** [params] is [{"val": val, "max_age_in_sec": max_age_in_sec}]; the dict
    is kept as its entries, [max_age_in_sec] with its annotated type [int]. *)
Record t := init {
  id : string;
  claim : SessionClaim.t;
  val : pyval;
  max_age_in_sec : Z;
}.

Definition should_refetch (self : t) (payload : loc) (uc : user_context) : M bool :=
  let max_age_in_sec := max_age_in_sec self in
  x ← SessionClaim.get_value_from_payload (claim self) payload uc;
  if is_none x then mret true
  else
    entry ← dict_getitem payload (SessionClaim.key (claim self));
    t ← py_getitem entry "t";
    now ← get_timestamp_ms;
    py_lt t (now - max_age_in_sec * 1000).

Definition validate (self : t) (payload : loc) (uc : user_context) : M pyval :=
  let val := val self in
  let max_age_in_sec := max_age_in_sec self in
  claim_val ← SessionClaim.get_value_from_payload (claim self) payload uc;
  if is_none claim_val then
    mret (invalid [("message", VStr "value does not exist");
                   ("expectedValue", val);
                   ("actualValue", claim_val)]%string)
  else
    match SessionClaim.as_PrimitiveClaim (claim self) with
    | None => raise AssertionError
    | Some primitive =>
        now ← get_timestamp_ms;
        last ← SessionClaim.get_last_refetch_time primitive payload uc;
        diff ← py_rsub now (py_or last (VInt 0));
        age_in_sec ← py_div1000 diff;
        expired ← py_gt age_in_sec max_age_in_sec;
        if expired : bool then
          mret (invalid [("message", VStr "expired");
                         ("ageInSeconds", age_in_sec);
                         ("maxAgeInSeconds", VInt max_age_in_sec)]%string)
        else if py_ne claim_val val then
          mret (invalid [("message", VStr "wrong value");
                         ("expectedValue", val);
                         ("actualValue", claim_val)]%string)
        else mret (dict_display [("isValid", VBool true)]%string)
    end.

End HasFreshValueSCV.

(** ** The validator factory *)

(** [id_ or default] for [id_ : Union[str, None]]. *)
Definition str_or (id_ : option string) (default : string) : string :=
  match id_ with
  | Some s => if bool_decide (s = EmptyString) then default else s
  | None => default
  end.

Module PrimitiveClaimValidators.

Record t := init { claim : SessionClaim.t }.

Definition has_value (self : t) (val : pyval) (id_ : option string)
    : HasValueSCV.t :=
  HasValueSCV.init (str_or id_ (SessionClaim.key (claim self))) (claim self) val.

Definition has_fresh_value
    (self : t) (val : pyval) (max_age_in_sec : Z) (id_ : option string)
    : HasFreshValueSCV.t :=
  HasFreshValueSCV.init
    (str_or id_ (SessionClaim.key (claim self) +:+ "-fresh-val"))
    (claim self) val max_age_in_sec.

End PrimitiveClaimValidators.

(** [claim.validators] of the object built by [PrimitiveClaim(key)]. *)
Definition validators (key : string) : PrimitiveClaimValidators.t :=
  PrimitiveClaimValidators.init (PrimitiveClaim.new key).

(** ** Vocabulary of the properties *)

(** What [payload[k] = v] and [del payload[k]] leave alone: the other keys
    of [p], every other dict, and the clock. *)
Definition frame (k : string) (p : loc) (w w' : world) : Prop :=
  (forall k', k' <> k -> heap w' p !! k' = heap w p !! k') /\
  (forall p', p' <> p -> heap w' p' = heap w p') /\
  clock w' = clock w.

(** The JSON type of a value; [int] and [float] are both JSON numbers. *)
Inductive json_type := JNull | JBoolean | JNumber | JString | JArray | JObject.

Definition json_type_of (x : pyval) : json_type :=
  match x with
  | VNone => JNull
  | VBool _ => JBoolean
  | VInt _ | VFloat _ => JNumber
  | VStr _ => JString
  | VList _ => JArray
  | VDict _ => JObject
  end.

#[global] Instance json_type_eq_dec : EqDecision json_type.
Proof. solve_decision. Defined.

(** Strict equality in the words of the specification: "type and value
    must match". *)
Definition strict_eq (x y : pyval) : bool :=
  bool_decide (json_type_of x = json_type_of y) && py_eq x y.

(** The claim object [c] with the [PrimitiveClaim] methods replaced. *)
Definition with_primitive_methods
    (c : SessionClaim.t) (pm : option SessionClaim.primitive_methods)
    : SessionClaim.t :=
  {| SessionClaim.key := SessionClaim.key c;
     SessionClaim.get_value_from_payload := SessionClaim.get_value_from_payload c;
     SessionClaim.as_PrimitiveClaim := pm |}.

(** A claim of a class other than [PrimitiveClaim]: it keeps its value
    directly under its key and reads it back with [payload.get(key)]. *)
Definition plain_claim (k : string) : SessionClaim.t :=
  {| SessionClaim.key := k;
     SessionClaim.get_value_from_payload := fun payload _ => dict_get payload k VNone;
     SessionClaim.as_PrimitiveClaim := None |}.

(** A world in which every dict has the content [d] and the clock always
    reads [now]. *)
Definition world_of (d : JSONObject) (now : Z) : world :=
  World (fun _ => d) (fun _ => now) 0.

(** The record [{"v": v, "t": t}]. *)
Definition record (v t : pyval) : pyval :=
  dict_display [("v", v); ("t", t)]%string.

Arguments dict_display : simpl never.
Arguments invalid : simpl never.
Arguments int_div1000 : simpl never.
Arguments float_of_int : simpl never.
Arguments num_ltb : simpl never.
Arguments SFsub : simpl never.
Arguments SFdiv : simpl never.
Arguments SFcompare : simpl never.

(** ** Further vocabulary *)

(** The values of [JSONPrimitive] in the words of the package: [None],
    [bool], numbers and [str]. *)
Definition is_primitive (x : pyval) : bool :=
  match x with
  | VNone | VBool _ | VInt _ | VFloat _ | VStr _ => true
  | VList _ | VDict _ => false
  end.

Definition is_dict (x : pyval) : bool :=
  match x with
  | VDict _ => true
  | _ => false
  end.

(** The world an outcome leaves behind. *)
Definition world_after {A} (o : outcome A) : world :=
  match o with
  | Ret _ w => w
  | Raise _ w => w
  end.

(** The entry of a result dict under a key. *)
Definition field (r : pyval) (k : string) : option pyval :=
  match r with
  | VDict d => d !! k
  | _ => None
  end.

(** The four results the validators build. *)
Abbreviation valid_result := (dict_display [("isValid", VBool true)]%string).

Abbreviation missing_result val actual :=
  (invalid [("message", VStr "value does not exist");
            ("expectedValue", val);
            ("actualValue", actual)]%string).

Abbreviation expired_result age max_age :=
  (invalid [("message", VStr "expired");
            ("ageInSeconds", age);
            ("maxAgeInSeconds", VInt max_age)]%string).

Abbreviation wrong_value_result val actual :=
  (invalid [("message", VStr "wrong value");
            ("expectedValue", val);
            ("actualValue", actual)]%string).

(** A well-formed validation result: [{"isValid": True}] with no reason, or
    [{"isValid": False, "reason": {...}}] whose reason carries one of the
    three messages. *)
Definition validation_result (r : pyval) : Prop :=
  (field r "isValid" = Some (VBool true) /\ field r "reason" = None) \/
  (field r "isValid" = Some (VBool false) /\
   exists (reason : JSONObject) (m : string),
     field r "reason" = Some (VDict reason) /\
     reason !! "message"%string = Some (VStr m) /\
     m ∈ ["value does not exist"; "expired"; "wrong value"]%string).

(** What holds of the result when a computation returns. *)
Definition returns {A} (o : outcome A) (P : A -> Prop) : Prop :=
  match o with
  | Ret a _ => P a
  | Raise _ _ => True
  end.

(** The float NaN, the one primitive value that is not [==] to itself. *)
Definition is_nan (x : pyval) : bool :=
  match x with
  | VFloat S754_nan => true
  | _ => false
  end.

(** The age computation of [validate] overflows, where [t] is what
    [last_refetch_time or 0] gives: for an int [t] the quotient
    [(now - t) / 1000] is beyond the doubles, for a float [t] the reading
    [now] is. *)
Definition age_overflows (now : Z) (t : pyval) : bool :=
  match t with
  | VBool b => match int_div1000 (now - Z.b2z b) with
               | Some _ => false
               | None => true
               end
  | VInt m => match int_div1000 (now - m) with
              | Some _ => false
              | None => true
              end
  | VFloat _ => match float_of_int now with
                | Some _ => false
                | None => true
                end
  | _ => false
  end.

(** A last refetch time that [validate] cannot subtract from the clock
    reading: truthy, so kept by [or 0], and not a number. *)
Definition bad_time (last : pyval) : bool :=
  match as_number last with
  | Some _ => false
  | None => truthy last
  end.

(** ** The GitLab provider

    [supertokens_python/recipe/thirdparty/providers/gitlab.py], without
    [get_profile_info], which talks to the network.  [BaseRequest] is the
    type of requests, which the provider never inspects. *)
Module GitLab.

(** A value of the [authorisation_redirect] dict:
    [Union[str, Callable[[BaseRequest], str]]]. *)
Inductive redirect_param (BaseRequest : Type) :=
  | Str (s : string)
  | Callable (f : BaseRequest -> string).
Arguments Str {BaseRequest} s.
Arguments Callable {BaseRequest} f.

(** Modelled from the spec: [AuthorisationRedirectAPI] and [AccessTokenAPI]
    of [thirdparty.types], which are missing; each keeps the url and the
    params it is built from. *)
Record AuthorisationRedirectAPI (BaseRequest : Type) := {
  redirect_url : string;
  redirect_params : gmap string (redirect_param BaseRequest);
}.
Arguments redirect_url {BaseRequest} _.
Arguments redirect_params {BaseRequest} _.

Record AccessTokenAPI := {
  token_url : string;
  token_params : gmap string string;
}.

(** The fields of a [GitLab] object; [id] and [is_default] are those that
    [Provider.__init__("gitlab", is_default)] keeps. *)
Record t (BaseRequest : Type) := {
  id : string;
  is_default : bool;
  client_id : string;
  client_secret : string;
  scopes : list string;
  gitlab_base_url : string;
  access_token_api_url : string;
  authorisation_redirect_url : string;
  authorisation_redirect_params : gmap string (redirect_param BaseRequest);
}.
Arguments id {BaseRequest} _.
Arguments is_default {BaseRequest} _.
Arguments client_id {BaseRequest} _.
Arguments client_secret {BaseRequest} _.
Arguments scopes {BaseRequest} _.
Arguments gitlab_base_url {BaseRequest} _.
Arguments access_token_api_url {BaseRequest} _.
Arguments authorisation_redirect_url {BaseRequest} _.
Arguments authorisation_redirect_params {BaseRequest} _.

(** [__init__].  Two things it uses are not in the sources at hand and are
    taken as parameters: [list_of_set], the order in which [list(set(...))]
    enumerates a set, and [normalise], standing for
    [NormalisedURLDomain(url).get_as_string_dangerous()], which gives [None]
    when that raises. *)
Definition init {BaseRequest : Type}
    (list_of_set : gset string -> list string)
    (normalise : string -> option string)
    (client_id client_secret : string)
    (scope : option (list string))
    (authorisation_redirect : option (gmap string (redirect_param BaseRequest)))
    (gitlab_base_url : string)
    (is_default : bool) : option (t BaseRequest) :=
  let default_scopes := ["read_user"%string] in
  let scope := match scope with
               | None => default_scopes
               | Some scope => scope
               end in
  let scopes := list_of_set (list_to_set scope) in
  match normalise gitlab_base_url with
  | None => None
  | Some gitlab_base_url =>
      Some {| id := "gitlab";
              is_default := is_default;
              client_id := client_id;
              client_secret := client_secret;
              scopes := scopes;
              gitlab_base_url := gitlab_base_url;
              access_token_api_url := gitlab_base_url +:+ "/oauth/token";
              authorisation_redirect_url := gitlab_base_url +:+ "/oauth/authorize";
              authorisation_redirect_params :=
                match authorisation_redirect with
                | None => ∅
                | Some authorisation_redirect => authorisation_redirect
                end |}
  end.

(** The three entries written before [**self.authorisation_redirect_params]. *)
Definition redirect_defaults {BaseRequest : Type} (self : t BaseRequest)
    : gmap string (redirect_param BaseRequest) :=
  list_to_map [("scope", Str (String.concat " " (scopes self)));
               ("response_type", Str "code");
               ("client_id", Str (client_id self))]%string.

(** In the dict display the entries of [authorisation_redirect_params] come
    last and replace earlier ones with the same key. *)
Definition get_authorisation_redirect_api_info {BaseRequest : Type}
    (self : t BaseRequest) (_ : user_context)
    : AuthorisationRedirectAPI BaseRequest :=
  let params := authorisation_redirect_params self ∪ redirect_defaults self in
  {| redirect_url := authorisation_redirect_url self;
     redirect_params := params |}.

Definition get_access_token_api_info {BaseRequest : Type}
    (self : t BaseRequest) (redirect_uri auth_code_from_request : string)
    (_ : user_context) : AccessTokenAPI :=
  let params : gmap string string :=
    list_to_map [("client_id", client_id self);
                 ("client_secret", client_secret self);
                 ("grant_type", "authorization_code");
                 ("code", auth_code_from_request);
                 ("redirect_uri", redirect_uri)]%string in
  {| token_url := access_token_api_url self; token_params := params |}.

Definition get_redirect_uri {BaseRequest : Type}
    (self : t BaseRequest) (_ : user_context) : option string := None.

Definition get_client_id {BaseRequest : Type}
    (self : t BaseRequest) (_ : user_context) : string := client_id self.

End GitLab.

(** * Properties *)

(** ** Running computations *)

Ltac run_py :=
  unfold mbind, M_bind, bind, mret, M_ret, ret, raise in *; simpl in *.

Lemma heap_setitem_same (p : loc) (k : string) (v : pyval) w :
  heap (set_heap (<[p := <[k := v]> (heap w p)]> (heap w)) w) p !! k = Some v.
Proof. simpl. rewrite fn_lookup_insert. apply lookup_insert_eq. Qed.

Lemma frame_setitem (p : loc) (k : string) (v : pyval) w :
  frame k p w (set_heap (<[p := <[k := v]> (heap w p)]> (heap w)) w).
Proof.
  repeat split; simpl.
  - intros k' Hk. rewrite fn_lookup_insert. by apply lookup_insert_ne.
  - intros p' Hp. by apply fn_lookup_insert_ne.
Qed.

Lemma frame_delitem (p : loc) (k : string) w :
  frame k p w (set_heap (<[p := delete k (heap w p)]> (heap w)) w).
Proof.
  repeat split; simpl.
  - intros k' Hk. rewrite fn_lookup_insert. by apply lookup_delete_ne.
  - intros p' Hp. by apply fn_lookup_insert_ne.
Qed.

Lemma frame_tick (k : string) (p : loc) w w' :
  frame k p (tick w) w' -> frame k p w w'.
Proof. by intros (? & ? & ?). Qed.

(** The accessors of [PrimitiveClaim] do not change the world, and are
    determined by the entry under the key. *)
Lemma get_value_absent (k : string) (p : loc) uc w :
  heap w p !! k = None ->
  PrimitiveClaim.get_value_from_payload k p uc w = Ret VNone w.
Proof.
  intros H. unfold PrimitiveClaim.get_value_from_payload, dict_get.
  run_py. by rewrite H.
Qed.

Lemma get_value_record (k : string) (p : loc) (d : JSONObject) uc w :
  heap w p !! k = Some (VDict d) ->
  PrimitiveClaim.get_value_from_payload k p uc w =
    Ret (default VNone (d !! "v"%string)) w.
Proof.
  intros H. unfold PrimitiveClaim.get_value_from_payload, dict_get.
  run_py. by rewrite H.
Qed.

Lemma get_last_refetch_time_record (k : string) (p : loc) (d : JSONObject) uc w :
  heap w p !! k = Some (VDict d) ->
  PrimitiveClaim.get_last_refetch_time k p uc w =
    Ret (default VNone (d !! "t"%string)) w.
Proof.
  intros H. unfold PrimitiveClaim.get_last_refetch_time, dict_get.
  run_py. by rewrite H.
Qed.

Lemma get_value_not_record (k : string) (p : loc) (x : pyval) uc w :
  heap w p !! k = Some x ->
  (forall d, x <> VDict d) ->
  PrimitiveClaim.get_value_from_payload k p uc w = Raise AttributeError w.
Proof.
  intros H Hx. unfold PrimitiveClaim.get_value_from_payload, dict_get.
  run_py. rewrite H. destruct x; try reflexivity. by destruct (Hx d).
Qed.

(** ** The payload mutators and accessors *)

(** C1, as the code has it: [remove_from_payload_by_merge_] returns the
    payload with the claim's key still present and mapped to [None], but a
    following [get_value_from_payload] does not return [None]: it raises
    [AttributeError], because [payload.get(key, {})] yields the stored
    [None], which has no [get]. *)
Theorem remove_by_merge_then_get_value_raises
    (k : string) (p : loc) (uc uc' : user_context) (w : world) :
  exists w',
    PrimitiveClaim.remove_from_payload_by_merge_ k p uc w = Ret p w' /\
    heap w' p !! k = Some VNone /\
    PrimitiveClaim.get_value_from_payload k p uc' w' = Raise AttributeError w'.
Proof.
  eexists. split; [reflexivity|].
  assert (H := heap_setitem_same p k VNone w).
  split; [exact H|].
  by apply (get_value_not_record k p VNone).
Qed.

Lemma add_to_payload_reads
    (k : string) (p : loc) (x : pyval) (uc : user_context) (w : world) :
  exists w',
    PrimitiveClaim.add_to_payload_ k p x uc w = Ret p w' /\
    ticks w' = S (ticks w) /\
    clock w' = clock w /\
    heap w' p !! k = Some (record x (VInt (clock w (ticks w)))) /\
    (forall uc', PrimitiveClaim.get_value_from_payload k p uc' w' = Ret x w') /\
    (forall uc', PrimitiveClaim.get_last_refetch_time k p uc' w' =
                   Ret (VInt (clock w (ticks w))) w').
Proof.
  eexists. split; [reflexivity|]. split; [reflexivity|]. split; [reflexivity|].
  split; [apply heap_setitem_same|].
  set (d := list_to_map [("v", x); ("t", VInt (clock w (ticks w)))]%string
            : JSONObject).
  assert (H : heap (set_heap (<[p := <[k := VDict d]> (heap (tick w) p)]>
                                (heap (tick w))) (tick w)) p !! k
              = Some (VDict d))
    by apply heap_setitem_same.
  split; intros uc'.
  - rewrite (get_value_record k p d) by exact H. reflexivity.
  - rewrite (get_last_refetch_time_record k p d) by exact H. reflexivity.
Qed.

(** C6: after [add_to_payload_(p, x, ctx)] the value accessor returns
    exactly [x], and [get_last_refetch_time] returns the one clock reading
    taken during the call: the call returns [p] itself, takes the reading
    numbered [ticks w], and leaves the count of readings at [ticks w + 1]. *)
Theorem add_then_get_value_and_time
    (k : string) (p : loc) (x : pyval) (uc uc' uc'' : user_context) (w : world) :
  exists w',
    PrimitiveClaim.add_to_payload_ k p x uc w = Ret p w' /\
    PrimitiveClaim.get_value_from_payload k p uc' w' = Ret x w' /\
    ticks w' = S (ticks w) /\
    exists n : nat,
      (ticks w <= n < ticks w')%nat /\
      PrimitiveClaim.get_last_refetch_time k p uc'' w' = Ret (VInt (clock w n)) w'.
Proof.
  destruct (add_to_payload_reads k p x uc w) as (w' & Ha & Ht & _ & _ & Hv & Hl).
  exists w'. split; [exact Ha|]. split; [apply Hv|]. split; [exact Ht|].
  exists (ticks w). split; [lia|apply Hl].
Qed.

(** C9, as the code has it: [add_to_payload_] and
    [remove_from_payload_by_merge_] always return the payload they were
    given and change nothing but the entry under the claim's key;
    [remove_from_payload] does the same when the key is present, and
    otherwise raises [KeyError] leaving the world as it was. *)
Theorem mutators_frame
    (k : string) (p : loc) (x : pyval) (uc : user_context) (w : world) :
  (exists w', PrimitiveClaim.add_to_payload_ k p x uc w = Ret p w' /\
              frame k p w w') /\
  (exists w', PrimitiveClaim.remove_from_payload_by_merge_ k p uc w = Ret p w' /\
              frame k p w w') /\
  match heap w p !! k with
  | Some _ =>
      exists w', PrimitiveClaim.remove_from_payload k p uc w = Ret p w' /\
                 frame k p w w'
  | None => PrimitiveClaim.remove_from_payload k p uc w = Raise KeyError w
  end.
Proof.
  split; [|split].
  - eexists. split; [reflexivity|].
    apply frame_tick, frame_setitem.
  - eexists. split; [reflexivity|]. apply frame_setitem.
  - unfold PrimitiveClaim.remove_from_payload, dict_delitem. run_py.
    destruct (heap w p !! k) eqn:E; [|reflexivity].
    eexists. split; [reflexivity|]. apply frame_delitem.
Qed.

(** ** Python equality *)

Lemma py_eq_str_int (s : string) (n : Z) :
  py_eq (VStr s) (VInt n) = false /\ py_eq (VInt n) (VStr s) = false.
Proof. split; reflexivity. Qed.

Lemma py_eq_bool_int (b : bool) (n : Z) :
  py_eq (VBool b) (VInt n) = (Z.b2z b =? n).
Proof. reflexivity. Qed.

Lemma py_eq_int_int (m n : Z) : py_eq (VInt m) (VInt n) = (m =? n).
Proof. reflexivity. Qed.

(** ** [HasValueSCV] *)

(** C2, as the code has it: [validate] returns [{"isValid": True}] exactly
    when the value read by the claim's accessor is [==] to the expected
    value, and otherwise the "wrong value" result carrying the expected and
    the actual value; an exception of the accessor propagates.  Under [==] a
    string never equals an int, but a bool equals the int of the same
    numeric value. *)
Theorem HasValueSCV_validate_python_eq
    (self : HasValueSCV.t) (p : loc) (uc : user_context) (w : world) :
  HasValueSCV.validate self p uc w =
    match SessionClaim.get_value_from_payload (HasValueSCV.claim self) p uc w with
    | Ret claim_val w' =>
        Ret (if py_eq claim_val (HasValueSCV.val self)
             then dict_display [("isValid", VBool true)]%string
             else invalid [("message", VStr "wrong value");
                           ("expectedValue", HasValueSCV.val self);
                           ("actualValue", claim_val)]%string) w'
    | Raise e w' => Raise e w'
    end /\
  (forall (s : string) (n : Z),
     py_eq (VStr s) (VInt n) = false /\ py_eq (VInt n) (VStr s) = false) /\
  (forall (b : bool) (n : Z), py_eq (VBool b) (VInt n) = (Z.b2z b =? n)) /\
  (forall m n : Z, py_eq (VInt m) (VInt n) = (m =? n)).
Proof.
  split; [|split; [apply py_eq_str_int|split; [apply py_eq_bool_int|apply py_eq_int_int]]].
  unfold HasValueSCV.validate, mbind, M_bind, bind.
  destruct (SessionClaim.get_value_from_payload _ p uc w) as [x w'|e w'];
    [|reflexivity].
  destruct (py_eq x (HasValueSCV.val self)); reflexivity.
Qed.

(** C7, as the code has it: on a payload whose entry under the claim's key
    is the [None] that [remove_from_payload_by_merge_] writes, the claim's
    value is null, yet [should_refetch] does not return [True]: the accessor
    raises [AttributeError] and [should_refetch] lets it through.  On a
    payload without the key it does return [True]. *)
Theorem HasValueSCV_should_refetch_tombstone
    (k : string) (val : pyval) (id_ : option string)
    (p : loc) (uc uc' : user_context) (w : world) :
  let self := PrimitiveClaimValidators.has_value (validators k) val id_ in
  (exists w',
     PrimitiveClaim.remove_from_payload_by_merge_ k p uc w = Ret p w' /\
     heap w' p !! k = Some VNone /\
     HasValueSCV.should_refetch self p uc' w' = Raise AttributeError w') /\
  match heap w p !! k with
  | Some VNone => HasValueSCV.should_refetch self p uc' w = Raise AttributeError w
  | Some _ => True
  | None => HasValueSCV.should_refetch self p uc' w = Ret true w
  end.
Proof.
  intros self. split.
  - eexists. split; [reflexivity|].
    assert (H := heap_setitem_same p k VNone w). split; [exact H|].
    unfold HasValueSCV.should_refetch, mbind, M_bind, bind. simpl.
    by rewrite (get_value_not_record k p VNone).
  - destruct (heap w p !! k) as [[]|] eqn:E; try exact I.
    + unfold HasValueSCV.should_refetch, mbind, M_bind, bind. simpl.
      by rewrite (get_value_not_record k p VNone).
    + unfold HasValueSCV.should_refetch, mbind, M_bind, bind. simpl.
      by rewrite get_value_absent.
Qed.

(** X21: [should_refetch] returns [True] exactly when the claim's accessor
    returns [None], and [False] exactly when it returns anything else.  For a
    [PrimitiveClaim], a payload without the key gives [True], a record under
    the key gives [True] or [False] as its ["v"] is missing or [None], or is
    another value, and right after [add_to_payload_(p, x)] the answer is
    [x is None], which is [False] for [False] and for [0]. *)
Theorem HasValueSCV_should_refetch_iff_none :
  (forall (self : HasValueSCV.t) (p : loc) (uc : user_context) (w w' : world),
     (HasValueSCV.should_refetch self p uc w = Ret true w' <->
      SessionClaim.get_value_from_payload (HasValueSCV.claim self) p uc w
        = Ret VNone w') /\
     (HasValueSCV.should_refetch self p uc w = Ret false w' <->
      exists x, x <> VNone /\
        SessionClaim.get_value_from_payload (HasValueSCV.claim self) p uc w
          = Ret x w')) /\
  (forall (k : string) (val : pyval) (id_ : option string)
          (p : loc) (uc : user_context) (w : world),
     heap w p !! k = None ->
     HasValueSCV.should_refetch
       (PrimitiveClaimValidators.has_value (validators k) val id_) p uc w
       = Ret true w) /\
  (forall (k : string) (val : pyval) (id_ : option string)
          (p : loc) (uc : user_context) (w : world) (entry : JSONObject),
     heap w p !! k = Some (VDict entry) ->
     HasValueSCV.should_refetch
       (PrimitiveClaimValidators.has_value (validators k) val id_) p uc w
       = Ret (is_none (default VNone (entry !! "v"%string))) w) /\
  (forall (k : string) (val x : pyval) (id_ : option string)
          (p : loc) (uc uc' : user_context) (w : world),
     exists w',
       PrimitiveClaim.add_to_payload_ k p x uc w = Ret p w' /\
       HasValueSCV.should_refetch
         (PrimitiveClaimValidators.has_value (validators k) val id_) p uc' w'
         = Ret (is_none x) w') /\
  is_none (VBool false) = false /\ is_none (VInt 0) = false.
Proof.
  split; [|split; [|split; [|split; [|split; reflexivity]]]].
  - intros self p uc w w'.
    unfold HasValueSCV.should_refetch, mbind, M_bind, bind, mret, M_ret, ret.
    destruct (SessionClaim.get_value_from_payload _ p uc w) as [x w1|e w1].
    + split; split.
      * intros H. destruct x; simpl in H; by inversion H.
      * intros H. by inversion H.
      * intros H. exists x. destruct x; simpl in H; inversion H; by subst.
      * intros (y & Hy & H). inversion H; subst. by destruct y.
    + split; split; try done. by intros (y & _ & H).
  - intros k val id_ p uc w H.
    unfold HasValueSCV.should_refetch, mbind, M_bind, bind. simpl.
    by rewrite get_value_absent.
  - intros k val id_ p uc w entry H.
    unfold HasValueSCV.should_refetch, mbind, M_bind, bind. simpl.
    by rewrite (get_value_record k p entry).
  - intros k val x id_ p uc uc' w.
    destruct (add_to_payload_reads k p x uc w) as (w' & Ha & _ & _ & _ & Hv & _).
    exists w'. split; [exact Ha|].
    unfold HasValueSCV.should_refetch, mbind, M_bind, bind. simpl.
    by rewrite Hv.
Qed.

(** ** [PrimitiveClaimValidators] *)

(** C8, as the code has it: without an id, [has_value] names the validator
    by the claim's key and [has_fresh_value] by the key followed by
    ["-fresh-val"]; a supplied id that is not the empty string overrides the
    default; the empty string counts as no id, because the id is chosen with
    [id_ or default]. *)
Theorem factory_ids
    (self : PrimitiveClaimValidators.t) (val : pyval) (max_age_in_sec : Z) :
  let k := SessionClaim.key (PrimitiveClaimValidators.claim self) in
  HasValueSCV.id (PrimitiveClaimValidators.has_value self val None) = k /\
  HasFreshValueSCV.id
    (PrimitiveClaimValidators.has_fresh_value self val max_age_in_sec None)
    = k +:+ "-fresh-val" /\
  (forall s : string,
     HasValueSCV.id (PrimitiveClaimValidators.has_value self val (Some s))
       = (if bool_decide (s = EmptyString) then k else s) /\
     HasFreshValueSCV.id
       (PrimitiveClaimValidators.has_fresh_value self val max_age_in_sec (Some s))
       = (if bool_decide (s = EmptyString) then k +:+ "-fresh-val" else s)).
Proof. repeat split. Qed.

(** ** Comparisons with the clock *)

Lemma py_or_int (t : Z) : py_or (VInt t) (VInt 0) = VInt t.
Proof.
  unfold py_or. simpl. destruct (Z.eqb_spec t 0) as [->|]; reflexivity.
Qed.

Lemma is_none_false (x : pyval) : x <> VNone -> is_none x = false.
Proof. by destruct x. Qed.

Lemma is_none_true (x : pyval) : is_none x = true <-> x = VNone.
Proof. by destruct x. Qed.

(** ** [HasFreshValueSCV] *)

(** One run of [validate] past the existence check and the type assertion,
    when [last_refetch_time or 0] is the int [t]. *)
Lemma HasFreshValueSCV_validate_run
    (self : HasFreshValueSCV.t) (p : loc) (uc : user_context) (w w1 w2 : world)
    (claim_val last : pyval) (pm : SessionClaim.primitive_methods) (t : Z) :
  SessionClaim.get_value_from_payload (HasFreshValueSCV.claim self) p uc w
    = Ret claim_val w1 ->
  claim_val <> VNone ->
  SessionClaim.as_PrimitiveClaim (HasFreshValueSCV.claim self) = Some pm ->
  SessionClaim.get_last_refetch_time pm p uc (tick w1) = Ret last w2 ->
  py_or last (VInt 0) = VInt t ->
  HasFreshValueSCV.validate self p uc w =
    match int_div1000 (clock w1 (ticks w1) - t) with
    | Some age =>
        Ret (if num_ltb (NInt (HasFreshValueSCV.max_age_in_sec self)) (NFloat age)
             then expired_result (VFloat age) (HasFreshValueSCV.max_age_in_sec self)
             else if py_ne claim_val (HasFreshValueSCV.val self)
             then wrong_value_result (HasFreshValueSCV.val self) claim_val
             else valid_result) w2
    | None => Raise OverflowError w2
    end.
Proof.
  intros Hv Hne Hpm Hlast Hor.
  unfold HasFreshValueSCV.validate, mbind, M_bind, bind.
  rewrite Hv, (is_none_false _ Hne), Hpm.
  unfold get_timestamp_ms. rewrite Hlast, Hor.
  unfold py_rsub, py_div1000, ret.
  destruct (int_div1000 _) as [age|]; [|reflexivity].
  unfold py_gt, as_number, ret.
  destruct (num_ltb _ _); [reflexivity|].
  destruct (py_ne claim_val _); reflexivity.
Qed.

(** C3, as the code has it: on a payload whose entry under the claim's key
    is the [None] that [remove_from_payload_by_merge_] writes, the claim's
    value is absent, yet [validate] does not start with the "value does not
    exist" result: the accessor raises [AttributeError] before any check is
    made.  On a payload without the key the result is "value does not
    exist". *)
Theorem HasFreshValueSCV_validate_tombstone
    (k : string) (val : pyval) (max_age_in_sec : Z) (id_ : option string)
    (p : loc) (uc uc' : user_context) (w : world) :
  let self :=
    PrimitiveClaimValidators.has_fresh_value (validators k) val max_age_in_sec id_ in
  (exists w',
     PrimitiveClaim.remove_from_payload_by_merge_ k p uc w = Ret p w' /\
     heap w' p !! k = Some VNone /\
     HasFreshValueSCV.validate self p uc' w' = Raise AttributeError w') /\
  match heap w p !! k with
  | Some VNone => HasFreshValueSCV.validate self p uc' w = Raise AttributeError w
  | Some _ => True
  | None => HasFreshValueSCV.validate self p uc' w = Ret (missing_result val VNone) w
  end.
Proof.
  intros self. split.
  - eexists. split; [reflexivity|].
    assert (H := heap_setitem_same p k VNone w). split; [exact H|].
    unfold HasFreshValueSCV.validate, mbind, M_bind, bind. simpl.
    by rewrite (get_value_not_record k p VNone).
  - destruct (heap w p !! k) as [[]|] eqn:E; try exact I.
    + unfold HasFreshValueSCV.validate, mbind, M_bind, bind. simpl.
      by rewrite (get_value_not_record k p VNone).
    + unfold HasFreshValueSCV.validate, mbind, M_bind, bind. simpl.
      by rewrite get_value_absent.
Qed.

(** X20: when the claim's accessor returns, [validate] checks existence
    first, then freshness, then equality.  If the accessor returns [None]
    the result is "value does not exist".  Otherwise, for a [PrimitiveClaim]
    whose last refetch time is the int [t], the age is the double nearest to
    [(now - t) / 1000] for the clock reading [now]; if that quotient is
    beyond the doubles, [OverflowError] is raised; an age above
    [max_age_in_sec] gives "expired" with [ageInSeconds] and
    [maxAgeInSeconds], also when the value equals the expected one;
    otherwise a value that differs from the expected one gives "wrong
    value", and an equal one [{"isValid": True}].  For a last refetch time
    that is a float [f] other than zero, the age is [(float(now) - f) /
    1000.0] in float arithmetic, [float(now)] raising [OverflowError] when
    [now] is beyond the doubles, and the checks go the same way. *)
Theorem HasFreshValueSCV_validate_order
    (self : HasFreshValueSCV.t) (p : loc) (uc : user_context) (w w1 : world)
    (claim_val : pyval) :
  SessionClaim.get_value_from_payload (HasFreshValueSCV.claim self) p uc w
    = Ret claim_val w1 ->
  let val := HasFreshValueSCV.val self in
  let max_age_in_sec := HasFreshValueSCV.max_age_in_sec self in
  (claim_val = VNone ->
   HasFreshValueSCV.validate self p uc w = Ret (missing_result val claim_val) w1) /\
  (claim_val <> VNone ->
   forall (pm : SessionClaim.primitive_methods) (t : Z) (w2 : world),
     SessionClaim.as_PrimitiveClaim (HasFreshValueSCV.claim self) = Some pm ->
     SessionClaim.get_last_refetch_time pm p uc (tick w1) = Ret (VInt t) w2 ->
     let now := clock w1 (ticks w1) in
     match int_div1000 (now - t) with
     | None => HasFreshValueSCV.validate self p uc w = Raise OverflowError w2
     | Some age =>
         HasFreshValueSCV.validate self p uc w =
           Ret (if num_ltb (NInt max_age_in_sec) (NFloat age)
                then expired_result (VFloat age) max_age_in_sec
                else if py_ne claim_val val
                then wrong_value_result val claim_val
                else valid_result) w2 /\
         (num_ltb (NInt max_age_in_sec) (NFloat age) = true ->
          py_eq claim_val val = true ->
          HasFreshValueSCV.validate self p uc w
            = Ret (expired_result (VFloat age) max_age_in_sec) w2)
     end) /\
  (claim_val <> VNone ->
   forall (pm : SessionClaim.primitive_methods) (f : spec_float) (w2 : world),
     SessionClaim.as_PrimitiveClaim (HasFreshValueSCV.claim self) = Some pm ->
     SessionClaim.get_last_refetch_time pm p uc (tick w1) = Ret (VFloat f) w2 ->
     truthy (VFloat f) = true ->
     match float_of_int (clock w1 (ticks w1)) with
     | None => HasFreshValueSCV.validate self p uc w = Raise OverflowError w2
     | Some now =>
         let age := SFdiv prec emax (SFsub prec emax now f) float_1000 in
         HasFreshValueSCV.validate self p uc w =
           Ret (if num_ltb (NInt max_age_in_sec) (NFloat age)
                then expired_result (VFloat age) max_age_in_sec
                else if py_ne claim_val val
                then wrong_value_result val claim_val
                else valid_result) w2
     end).
Proof.
  intros Hv val max_age_in_sec. split; [|split].
  3:{ intros Hne pm f w2 Hpm Hlast Htrue.
      unfold HasFreshValueSCV.validate, mbind, M_bind, bind.
      rewrite Hv, (is_none_false _ Hne), Hpm.
      unfold get_timestamp_ms. rewrite Hlast. unfold py_or. rewrite Htrue.
      unfold py_rsub.
      destruct (float_of_int (clock w1 (ticks w1))) as [now|]; [|reflexivity].
      unfold ret, py_div1000, py_gt, as_number, ret.
      fold val max_age_in_sec.
      destruct (num_ltb _ _); [reflexivity|].
      destruct (py_ne claim_val val); reflexivity. }
  - intros ->.
    unfold HasFreshValueSCV.validate, mbind, M_bind, bind. by rewrite Hv.
  - intros Hne pm t w2 Hpm Hlast now.
    assert (Hrun := HasFreshValueSCV_validate_run self p uc w w1 w2 claim_val
                      (VInt t) pm t Hv Hne Hpm Hlast (py_or_int t)).
    fold now max_age_in_sec val in Hrun.
    destruct (int_div1000 (now - t)) as [age|]; [|exact Hrun].
    split; [exact Hrun|].
    intros Hexp _. by rewrite Hrun, Hexp.
Qed.

(** C4, as the code has it: on a payload whose entry under the claim's key
    is the [None] that [remove_from_payload_by_merge_] writes, the claim's
    value is null, yet [should_refetch] does not return [True]: the accessor
    raises [AttributeError] and [should_refetch] lets it through.  On a
    payload without the key it does return [True]. *)
Theorem HasFreshValueSCV_should_refetch_tombstone
    (k : string) (val : pyval) (max_age_in_sec : Z) (id_ : option string)
    (p : loc) (uc uc' : user_context) (w : world) :
  let self :=
    PrimitiveClaimValidators.has_fresh_value (validators k) val max_age_in_sec id_ in
  (exists w',
     PrimitiveClaim.remove_from_payload_by_merge_ k p uc w = Ret p w' /\
     heap w' p !! k = Some VNone /\
     HasFreshValueSCV.should_refetch self p uc' w' = Raise AttributeError w') /\
  match heap w p !! k with
  | Some VNone =>
      HasFreshValueSCV.should_refetch self p uc' w = Raise AttributeError w
  | Some _ => True
  | None => HasFreshValueSCV.should_refetch self p uc' w = Ret true w
  end.
Proof.
  intros self. split.
  - eexists. split; [reflexivity|].
    assert (H := heap_setitem_same p k VNone w). split; [exact H|].
    unfold HasFreshValueSCV.should_refetch, mbind, M_bind, bind. simpl.
    by rewrite (get_value_not_record k p VNone).
  - destruct (heap w p !! k) as [[]|] eqn:E; try exact I.
    + unfold HasFreshValueSCV.should_refetch, mbind, M_bind, bind. simpl.
      by rewrite (get_value_not_record k p VNone).
    + unfold HasFreshValueSCV.should_refetch, mbind, M_bind, bind. simpl.
      by rewrite get_value_absent.
Qed.

(** X19: [should_refetch] returns [True] exactly when the claim's accessor
    returns [None], or it returns something else and the field ["t"] of the
    payload entry under the claim's key is a number less than
    [now - max_age_in_sec * 1000] for the clock reading [now].  The
    [PrimitiveClaim] methods of the claim, [get_last_refetch_time] among
    them, play no part in it.  Right after [add_to_payload_] has written a
    value other than [None] at the reading [t], the answer is
    [t < now - max_age_in_sec * 1000]. *)
Theorem HasFreshValueSCV_should_refetch_iff
    (self : HasFreshValueSCV.t) (p : loc) (uc : user_context) (w : world) :
  let claim := HasFreshValueSCV.claim self in
  let max_age_in_sec := HasFreshValueSCV.max_age_in_sec self in
  (forall w',
     HasFreshValueSCV.should_refetch self p uc w = Ret true w' <->
     SessionClaim.get_value_from_payload claim p uc w = Ret VNone w' \/
     exists (x : pyval) (w1 : world) (entry : JSONObject) (t : pyval) (a : number),
       SessionClaim.get_value_from_payload claim p uc w = Ret x w1 /\
       x <> VNone /\
       heap w1 p !! SessionClaim.key claim = Some (VDict entry) /\
       entry !! "t"%string = Some t /\
       as_number t = Some a /\
       num_ltb a (NInt (clock w1 (ticks w1) - max_age_in_sec * 1000)) = true /\
       w' = tick w1) /\
  (forall pm : option SessionClaim.primitive_methods,
     HasFreshValueSCV.should_refetch
       (HasFreshValueSCV.init (HasFreshValueSCV.id self)
          (with_primitive_methods claim pm)
          (HasFreshValueSCV.val self) max_age_in_sec) p uc w
     = HasFreshValueSCV.should_refetch self p uc w) /\
  (forall (k : string) (x : pyval) (uc' : user_context),
     is_none x = false ->
     exists w',
       PrimitiveClaim.add_to_payload_ k p x uc' w = Ret p w' /\
       HasFreshValueSCV.should_refetch
         (HasFreshValueSCV.init (HasFreshValueSCV.id self) (PrimitiveClaim.new k)
            (HasFreshValueSCV.val self) max_age_in_sec) p uc w'
       = Ret (clock w (ticks w) <? clock w (S (ticks w)) - max_age_in_sec * 1000)
           (tick w')).
Proof.
  intros claim max_age_in_sec. split; [|split; [reflexivity|]].
  2:{ intros k x uc' Hx.
      destruct (add_to_payload_reads k p x uc' w)
        as (w' & Ha & Ht & Hc & Hh & Hv & _).
      exists w'. split; [exact Ha|].
      unfold HasFreshValueSCV.should_refetch, mbind, M_bind, bind. simpl.
      rewrite Hv, Hx. unfold dict_getitem. rewrite Hh.
      unfold get_timestamp_ms, py_lt. simpl.
      rewrite lookup_insert_ne, lookup_insert_eq by done.
      unfold ret. simpl. by rewrite Hc, Ht. }
  intros w'.
  unfold HasFreshValueSCV.should_refetch, mbind, M_bind, bind, mret, M_ret, ret.
  fold claim max_age_in_sec.
  destruct (SessionClaim.get_value_from_payload claim p uc w) as [x w1|e w1].
  2:{ split; [done|]. intros [H|(?&?&?&?&?&H&_)]; discriminate. }
  destruct (is_none x) eqn:Hx.
  { apply is_none_true in Hx as ->. split.
    - intros H. left. by inversion H.
    - intros [H|(?&?&?&?&?&H&Hne&_)]; [by inversion H|].
      inversion H; subst. by destruct Hne. }
  assert (Hne : x <> VNone) by (intros ->; discriminate).
  unfold dict_getitem, py_getitem, get_timestamp_ms, py_lt, raise, ret.
  split.
  - intros H. right.
    destruct (heap w1 p !! SessionClaim.key claim) as [e|] eqn:He; [|discriminate].
    destruct e as [| | | | | |entry]; try discriminate.
    destruct (entry !! "t"%string) as [t|] eqn:Ht; [|discriminate].
    destruct (as_number t) as [q|] eqn:Hq; [|discriminate].
    injection H as Hlt Hw.
    exists x, w1, entry, t, q. repeat split; done.
  - intros [H|(x' & w1' & entry & t & q & H & _ & He & Ht & Hq & Hlt & ->)].
    { inversion H; subst. by destruct Hne. }
    inversion H; subst x' w1'. rewrite He, Ht, Hq.
    by f_equal.
Qed.

(** C10, as the code has it: when the entry under the key of a
    [PrimitiveClaim] is a record with a value other than [None] and with
    ["t"] missing or [None], [validate] reports no decode error:
    [get_last_refetch_time] gives [None] and [0] is taken in its place.  The
    age is the double nearest to [(now - 0) / 1000]; if there is none in
    range, [OverflowError] is raised.  The result is "expired", carrying
    that age and the max age, exactly when the age is greater than
    [max_age_in_sec], and the outcome of the value comparison otherwise. *)
Theorem HasFreshValueSCV_validate_missing_time
    (k id_ : string) (val : pyval) (max_age_in_sec : Z)
    (p : loc) (uc : user_context) (w : world) (entry : JSONObject) (v : pyval) :
  heap w p !! k = Some (VDict entry) ->
  entry !! "v"%string = Some v ->
  v <> VNone ->
  entry !! "t"%string = None \/ entry !! "t"%string = Some VNone ->
  let self := HasFreshValueSCV.init id_ (PrimitiveClaim.new k) val max_age_in_sec in
  let now := clock w (ticks w) in
  PrimitiveClaim.get_last_refetch_time k p uc w = Ret VNone w /\
  match int_div1000 (now - 0) with
  | None => HasFreshValueSCV.validate self p uc w = Raise OverflowError (tick w)
  | Some age =>
      if num_ltb (NInt max_age_in_sec) (NFloat age)
      then exists (r : pyval) (reason : JSONObject),
             HasFreshValueSCV.validate self p uc w = Ret r (tick w) /\
             field r "isValid" = Some (VBool false) /\
             field r "reason" = Some (VDict reason) /\
             reason !! "message"%string = Some (VStr "expired") /\
             reason !! "ageInSeconds"%string = Some (VFloat age) /\
             reason !! "maxAgeInSeconds"%string = Some (VInt max_age_in_sec)
      else HasFreshValueSCV.validate self p uc w =
             Ret (if py_eq v val then valid_result else wrong_value_result val v)
               (tick w)
  end.
Proof.
  intros He Hv Hne Ht self now.
  assert (Hlast : forall w0, heap w0 p = heap w p ->
            PrimitiveClaim.get_last_refetch_time k p uc w0 = Ret VNone w0).
  { intros w0 Hw0.
    rewrite (get_last_refetch_time_record k p entry) by (by rewrite Hw0).
    by destruct Ht as [-> | ->]. }
  assert (Hval : PrimitiveClaim.get_value_from_payload k p uc w = Ret v w).
  { rewrite (get_value_record k p entry) by exact He. by rewrite Hv. }
  assert (Hrun := HasFreshValueSCV_validate_run self p uc w w (tick w) v VNone
                    {| SessionClaim.get_last_refetch_time :=
                         PrimitiveClaim.get_last_refetch_time k |} 0
                    Hval Hne eq_refl (Hlast (tick w) eq_refl) eq_refl).
  split; [by apply Hlast|]. fold now in Hrun.
  destruct (int_div1000 (now - 0)) as [age|]; [|exact Hrun].
  rewrite Hrun. cbn [HasFreshValueSCV.max_age_in_sec HasFreshValueSCV.val self].
  destruct (num_ltb (NInt max_age_in_sec) (NFloat age)).
  - eexists _, _. split; [reflexivity|].
    split; [reflexivity|]. split; [reflexivity|].
    split; [reflexivity|]. split; reflexivity.
  - unfold py_ne. by destruct (py_eq v val).
Qed.

(** C5, as the code has it: the constructor stores the claim unchecked.  For
    a validator bound to a claim that is not a [PrimitiveClaim], [validate]
    first runs the existence check: if the accessor returns [None] the result
    is "value does not exist" and nothing is raised; the type assertion is
    reached, and raises [AssertionError], only when the accessor returns
    another value. *)
Theorem HasFreshValueSCV_validate_not_primitive
    (self : HasFreshValueSCV.t) (p : loc) (uc : user_context) (w : world) :
  SessionClaim.isinstance_PrimitiveClaim (HasFreshValueSCV.claim self) = false ->
  HasFreshValueSCV.validate self p uc w =
    match SessionClaim.get_value_from_payload
            (HasFreshValueSCV.claim self) p uc w with
    | Ret claim_val w' =>
        if is_none claim_val
        then Ret (invalid [("message", VStr "value does not exist");
                           ("expectedValue", HasFreshValueSCV.val self);
                           ("actualValue", claim_val)]%string) w'
        else Raise AssertionError w'
    | Raise e w' => Raise e w'
    end.
Proof.
  unfold SessionClaim.isinstance_PrimitiveClaim. intros Hcls.
  unfold HasFreshValueSCV.validate, mbind, M_bind, bind.
  destruct (SessionClaim.get_value_from_payload _ p uc w) as [x w'|e w'];
    [|reflexivity].
  destruct (is_none x); [reflexivity|].
  by destruct (SessionClaim.as_PrimitiveClaim (HasFreshValueSCV.claim self)).
Qed.

(** ** Concrete runs *)

(** C2 does not hold with strict equality: with [True] stored and [1]
    expected, whose types differ, [validate] answers [{"isValid": True}]. *)
Lemma HasValueSCV_validate_true_equals_one :
  let w := world_of {["k"%string := record (VBool true) (VInt 0)]} 0 in
  let self := PrimitiveClaimValidators.has_value (validators "k") (VInt 1) None in
  PrimitiveClaim.get_value_from_payload "k" 0%nat None w = Ret (VBool true) w /\
  strict_eq (VBool true) (VInt 1) = false /\
  HasValueSCV.validate self 0%nat None w
    = Ret (dict_display [("isValid", VBool true)]%string) w.
Proof. repeat split. Qed.

(** C8 does not hold for the empty string: supplied as id, it is replaced by
    the default. *)
Lemma factory_empty_id_not_kept :
  HasValueSCV.id
    (PrimitiveClaimValidators.has_value (validators "k") (VInt 1) (Some EmptyString))
    = "k"%string /\
  HasFreshValueSCV.id
    (PrimitiveClaimValidators.has_fresh_value (validators "k") (VInt 1) 60
       (Some EmptyString))
    = "k-fresh-val"%string.
Proof. split; reflexivity. Qed.

(** C9 does not hold for [remove_from_payload] on a payload without the
    key: it raises [KeyError] and returns nothing. *)
Lemma remove_from_payload_absent_key_raises :
  PrimitiveClaim.remove_from_payload "k" 0%nat None (world_of ∅ 0)
    = Raise KeyError (world_of ∅ 0).
Proof. reflexivity. Qed.

(** C5 does not hold: a [HasFreshValueSCV] bound to a claim that is not a
    [PrimitiveClaim] is constructed, and on a payload without the claim its
    [validate] produces a validation result, no error having surfaced. *)
Lemma HasFreshValueSCV_misbound_validates :
  let self := HasFreshValueSCV.init "k-fresh-val" (plain_claim "k") (VInt 1) 60 in
  SessionClaim.isinstance_PrimitiveClaim (HasFreshValueSCV.claim self) = false /\
  HasFreshValueSCV.validate self 0%nat None (world_of ∅ 1000)
    = Ret (invalid [("message", VStr "value does not exist");
                    ("expectedValue", VInt 1);
                    ("actualValue", VNone)]%string) (world_of ∅ 1000).
Proof. split; reflexivity. Qed.

(** C10 does not hold for every clock reading: with ["t"] missing, the
    reading [2^44 * 1000 + 1] and the max age [2^44], the quotient rounds to
    [2^44], which is not greater than the max age, and the stored value is
    accepted although [now > max_age_in_sec * 1000]; and with the reading
    [10^312] the quotient is beyond the doubles and [validate] raises. *)
Lemma HasFreshValueSCV_validate_missing_time_rounds :
  let p := 0%nat in
  let entry := dict_display [("v", VInt 5)]%string in
  let w := world_of {["k"%string := entry]} (2 ^ 44 * 1000 + 1) in
  let self :=
    HasFreshValueSCV.init "k-fresh-val" (PrimitiveClaim.new "k") (VInt 5) (2 ^ 44) in
  HasFreshValueSCV.max_age_in_sec self * 1000 < clock w (ticks w) /\
  HasFreshValueSCV.validate self p None w = Ret valid_result (tick w) /\
  HasFreshValueSCV.validate self p None (world_of {["k"%string := entry]} (10 ^ 312))
    = Raise OverflowError (tick (world_of {["k"%string := entry]} (10 ^ 312))).
Proof. vm_compute. repeat split. Qed.

Lemma HasFreshValueSCV_validate_order_witness :
  let w := world_of {["k"%string := record (VInt 5) (VInt 0)]} 150000 in
  let self :=
    PrimitiveClaimValidators.has_fresh_value (validators "k") (VInt 5) 100 None in
  let age := S754_finite false 5277655813324800 (-45) in
  SessionClaim.get_value_from_payload (HasFreshValueSCV.claim self) 0%nat None w
    = Ret (VInt 5) w /\
  int_div1000 (150000 - 0) = Some age /\
  HasFreshValueSCV.validate self 0%nat None w
    = Ret (expired_result (VFloat age) 100) (tick w).
Proof.
  intros w self age. split; [reflexivity|]. split; [reflexivity|].
  destruct (HasFreshValueSCV_validate_order self 0%nat None w w (VInt 5) eq_refl)
    as (_ & H & _).
  specialize (H ltac:(discriminate)
                {| SessionClaim.get_last_refetch_time :=
                     PrimitiveClaim.get_last_refetch_time "k" |}
                0 (tick w) eq_refl eq_refl).
  cbv zeta in H.
  change (int_div1000 (clock w (ticks w) - 0)) with (Some age) in H.
  destruct H as [_ H]. apply H; reflexivity.
Defined.

Lemma HasFreshValueSCV_validate_missing_time_witness :
  let w := world_of {["k"%string := dict_display [("v", VInt 5)]%string]} 150000 in
  let self := HasFreshValueSCV.init "k-fresh-val" (PrimitiveClaim.new "k") (VInt 5) 100 in
  let age := S754_finite false 5277655813324800 (-45) in
  heap w 0%nat !! "k"%string = Some (dict_display [("v", VInt 5)]%string) /\
  int_div1000 (150000 - 0) = Some age /\
  exists (r : pyval) (reason : JSONObject),
    HasFreshValueSCV.validate self 0%nat None w = Ret r (tick w) /\
    field r "isValid" = Some (VBool false) /\
    field r "reason" = Some (VDict reason) /\
    reason !! "message"%string = Some (VStr "expired") /\
    reason !! "ageInSeconds"%string = Some (VFloat age) /\
    reason !! "maxAgeInSeconds"%string = Some (VInt 100).
Proof.
  intros w self age. split; [reflexivity|]. split; [reflexivity|].
  destruct (HasFreshValueSCV_validate_missing_time "k" "k-fresh-val" (VInt 5) 100
              0%nat None w (list_to_map [("v", VInt 5)]%string) (VInt 5)
              eq_refl eq_refl ltac:(discriminate) (or_introl eq_refl))
    as [_ H].
  cbv zeta in H.
  change (int_div1000 (clock w (ticks w) - 0)) with (Some age) in H.
  change (num_ltb (NInt 100) (NFloat age)) with true in H.
  exact H.
Defined.

Lemma HasFreshValueSCV_validate_not_primitive_witness :
  let self := HasFreshValueSCV.init "k-fresh-val" (plain_claim "k") (VInt 1) 60 in
  let w := world_of {["k"%string := VInt 1]} 1000 in
  SessionClaim.isinstance_PrimitiveClaim (HasFreshValueSCV.claim self) = false /\
  HasFreshValueSCV.validate self 0%nat None w = Raise AssertionError w.
Proof.
  intros self w. split; [reflexivity|].
  rewrite (HasFreshValueSCV_validate_not_primitive self 0%nat None w eq_refl).
  reflexivity.
Defined.

(** * Further properties of the claim and its validators *)

(** ** Accessors and mutators *)

Lemma get_value_cases (k : string) (p : loc) uc w :
  PrimitiveClaim.get_value_from_payload k p uc w =
    match heap w p !! k with
    | None => Ret VNone w
    | Some (VDict d) => Ret (default VNone (d !! "v"%string)) w
    | Some _ => Raise AttributeError w
    end.
Proof.
  unfold PrimitiveClaim.get_value_from_payload, dict_get.
  run_py. destruct (heap w p !! k) as [[]|]; reflexivity.
Qed.

Lemma get_last_refetch_time_cases (k : string) (p : loc) uc w :
  PrimitiveClaim.get_last_refetch_time k p uc w =
    match heap w p !! k with
    | None => Ret VNone w
    | Some (VDict d) => Ret (default VNone (d !! "t"%string)) w
    | Some _ => Raise AttributeError w
    end.
Proof.
  unfold PrimitiveClaim.get_last_refetch_time, dict_get.
  run_py. destruct (heap w p !! k) as [[]|]; reflexivity.
Qed.

(** X1: the accessors never change the world, and they raise, always
    [AttributeError], exactly when the entry under the key is present and is
    not a dict; a missing key is not an error. *)
Theorem accessors_raise_iff_entry_not_dict
    (k : string) (p : loc) (uc : user_context) (w : world) :
  world_after (PrimitiveClaim.get_value_from_payload k p uc w) = w /\
  world_after (PrimitiveClaim.get_last_refetch_time k p uc w) = w /\
  (forall e w',
     PrimitiveClaim.get_value_from_payload k p uc w = Raise e w' <->
     e = AttributeError /\ w' = w /\
     exists x, heap w p !! k = Some x /\ is_dict x = false) /\
  (forall e w',
     PrimitiveClaim.get_last_refetch_time k p uc w = Raise e w' <->
     e = AttributeError /\ w' = w /\
     exists x, heap w p !! k = Some x /\ is_dict x = false).
Proof.
  rewrite get_value_cases, get_last_refetch_time_cases.
  destruct (heap w p !! k) as [x|] eqn:E.
  - destruct x; simpl; (split; [reflexivity|split; [reflexivity|]]);
      split; intros e w'; split;
      try (intros H; injection H as <- <-; eauto);
      try discriminate;
      try (intros (-> & -> & _); reflexivity);
      intros (_ & _ & y & Hy & Hd); injection Hy as <-; discriminate.
  - simpl. split; [reflexivity|split; [reflexivity|]].
    split; intros e w'; split; try discriminate;
      intros (_ & _ & y & Hy & _); discriminate.
Qed.

(** X2: when the key is present, [remove_from_payload] returns the payload
    with the key gone: both accessors then return [None], and a second
    [remove_from_payload] raises [KeyError]. *)
Theorem remove_from_payload_then_absent
    (k : string) (p : loc) (uc uc' : user_context) (w : world) :
  is_Some (heap w p !! k) ->
  exists w',
    PrimitiveClaim.remove_from_payload k p uc w = Ret p w' /\
    heap w' p !! k = None /\
    PrimitiveClaim.get_value_from_payload k p uc' w' = Ret VNone w' /\
    PrimitiveClaim.get_last_refetch_time k p uc' w' = Ret VNone w' /\
    PrimitiveClaim.remove_from_payload k p uc' w' = Raise KeyError w'.
Proof.
  intros [x Hx].
  unfold PrimitiveClaim.remove_from_payload, dict_delitem. run_py.
  rewrite Hx. eexists. split; [reflexivity|].
  assert (H : heap (set_heap (<[p := delete k (heap w p)]> (heap w)) w) p !! k
              = None).
  { simpl. rewrite fn_lookup_insert. apply lookup_delete_eq. }
  split; [exact H|].
  rewrite get_value_cases, get_last_refetch_time_cases, H.
  repeat split; reflexivity.
Qed.

(** X3: on a payload that does not have the key, [add_to_payload_] followed
    by [remove_from_payload] gives back the payload's content as it was, and
    that of every other dict. *)
Theorem add_then_remove_restores
    (k : string) (p : loc) (x : pyval) (uc uc' : user_context) (w : world) :
  heap w p !! k = None ->
  exists w1 w2,
    PrimitiveClaim.add_to_payload_ k p x uc w = Ret p w1 /\
    PrimitiveClaim.remove_from_payload k p uc' w1 = Ret p w2 /\
    forall p', heap w2 p' = heap w p'.
Proof.
  intros Hk.
  destruct (add_to_payload_reads k p x uc w) as (w1 & Ha & _ & _ & Hh & _).
  exists w1.
  unfold PrimitiveClaim.remove_from_payload, dict_delitem. run_py.
  rewrite Hh. eexists. split; [exact Ha|]. split; [reflexivity|].
  intros p'. simpl.
  unfold PrimitiveClaim.add_to_payload_, get_timestamp_ms, dict_setitem in Ha.
  run_py. injection Ha as <-. simpl.
  destruct (decide (p = p')) as [<-|Hne].
  - rewrite !fn_lookup_insert. by apply delete_insert_id.
  - by rewrite !fn_lookup_insert_ne.
Qed.

(** X4: once [remove_from_payload_by_merge_] has put [None] under the key,
    every method of the validators made for the claim raises
    [AttributeError]: none of them reports the claim as missing. *)
Theorem validators_raise_on_tombstone
    (k : string) (p : loc) (val val' : pyval) (max_age_in_sec : Z)
    (id_ id_' : option string) (uc uc' : user_context) (w : world) :
  let has_value := PrimitiveClaimValidators.has_value (validators k) val id_ in
  let has_fresh_value :=
    PrimitiveClaimValidators.has_fresh_value (validators k) val' max_age_in_sec id_' in
  exists w',
    PrimitiveClaim.remove_from_payload_by_merge_ k p uc w = Ret p w' /\
    HasValueSCV.should_refetch has_value p uc' w' = Raise AttributeError w' /\
    HasValueSCV.validate has_value p uc' w' = Raise AttributeError w' /\
    HasFreshValueSCV.should_refetch has_fresh_value p uc' w'
      = Raise AttributeError w' /\
    HasFreshValueSCV.validate has_fresh_value p uc' w' = Raise AttributeError w'.
Proof.
  intros has_value has_fresh_value.
  eexists. split; [reflexivity|].
  assert (H := heap_setitem_same p k VNone w).
  unfold HasValueSCV.should_refetch, HasValueSCV.validate,
    HasFreshValueSCV.should_refetch, HasFreshValueSCV.validate,
    mbind, M_bind, bind.
  simpl SessionClaim.get_value_from_payload.
  rewrite get_value_cases, H. repeat split; reflexivity.
Qed.

Lemma remove_from_payload_then_absent_witness :
  let w := world_of {["k"%string := record (VInt 5) (VInt 0)]} 0 in
  is_Some (heap w 0%nat !! "k"%string) /\
  exists w',
    PrimitiveClaim.remove_from_payload "k" 0%nat None w = Ret 0%nat w' /\
    heap w' 0%nat !! "k"%string = None.
Proof.
  intros w.
  assert (H : is_Some (heap w 0%nat !! "k"%string)) by (eexists; reflexivity).
  split; [exact H|].
  destruct (remove_from_payload_then_absent "k" 0%nat None None w H)
    as (w' & Hr & Hh & _).
  exists w'. split; [exact Hr|exact Hh].
Defined.

Lemma add_then_remove_restores_witness :
  let w := world_of ∅ 0 in
  heap w 0%nat !! "k"%string = None /\
  exists w1 w2,
    PrimitiveClaim.add_to_payload_ "k" 0%nat (VInt 5) None w = Ret 0%nat w1 /\
    PrimitiveClaim.remove_from_payload "k" 0%nat None w1 = Ret 0%nat w2 /\
    forall p', heap w2 p' = heap w p'.
Proof.
  intros w. split; [reflexivity|].
  apply (add_then_remove_restores "k" 0%nat (VInt 5) None None w eq_refl).
Defined.

(** X17: of two successive [add_to_payload_] calls the second wins: the
    value read back is the second one, and the time read back moves from the
    clock reading taken by the first call to the next reading, taken by the
    second. *)
Theorem add_twice_last_write_wins
    (k : string) (p : loc) (x y : pyval) (uc uc' uc'' : user_context) (w : world) :
  exists w1 w2,
    PrimitiveClaim.add_to_payload_ k p x uc w = Ret p w1 /\
    PrimitiveClaim.get_last_refetch_time k p uc'' w1
      = Ret (VInt (clock w (ticks w))) w1 /\
    PrimitiveClaim.add_to_payload_ k p y uc' w1 = Ret p w2 /\
    PrimitiveClaim.get_value_from_payload k p uc'' w2 = Ret y w2 /\
    PrimitiveClaim.get_last_refetch_time k p uc'' w2
      = Ret (VInt (clock w (S (ticks w)))) w2.
Proof.
  destruct (add_to_payload_reads k p x uc w) as (w1 & Ha1 & Ht1 & Hc1 & _ & _ & Hl1).
  destruct (add_to_payload_reads k p y uc' w1) as (w2 & Ha2 & _ & _ & _ & Hv2 & Hl2).
  exists w1, w2. rewrite Hc1, Ht1 in Hl2. eauto 10.
Qed.

(** X18: [remove_from_payload_by_merge_] never raises and writes the key
    even into a payload that did not have it; doing it twice changes nothing
    more; and since the key is then present, a following
    [remove_from_payload] succeeds and leaves the key absent, which, when
    the key was absent to begin with, gives back the contents as they
    were. *)
Theorem remove_by_merge_then_remove
    (k : string) (p : loc) (uc uc' uc'' : user_context) (w : world) :
  exists w1 w2 w3,
    PrimitiveClaim.remove_from_payload_by_merge_ k p uc w = Ret p w1 /\
    PrimitiveClaim.remove_from_payload_by_merge_ k p uc' w1 = Ret p w2 /\
    (forall p', heap w2 p' = heap w1 p') /\
    PrimitiveClaim.remove_from_payload k p uc'' w1 = Ret p w3 /\
    heap w3 p !! k = None /\
    (heap w p !! k = None -> forall p', heap w3 p' = heap w p').
Proof.
  assert (H1 := heap_setitem_same p k VNone w).
  set (w1 := set_heap (<[p := <[k := VNone]> (heap w p)]> (heap w)) w) in *.
  exists w1, (set_heap (<[p := <[k := VNone]> (heap w1 p)]> (heap w1)) w1),
    (set_heap (<[p := delete k (heap w1 p)]> (heap w1)) w1).
  split; [reflexivity|]. split; [reflexivity|].
  split; [|split; [|split]].
  - intros p'. simpl. destruct (decide (p = p')) as [<-|Hne].
    + rewrite !fn_lookup_insert. apply insert_insert_eq.
    + by rewrite !fn_lookup_insert_ne.
  - unfold PrimitiveClaim.remove_from_payload, dict_delitem,
      mbind, M_bind, bind.
    by rewrite H1.
  - simpl. rewrite fn_lookup_insert. apply lookup_delete_eq.
  - intros Hk p'. simpl. destruct (decide (p = p')) as [<-|Hne].
    + rewrite !fn_lookup_insert. by apply delete_insert_id.
    + by rewrite !fn_lookup_insert_ne.
Qed.

(** ** Writing a value and validating it *)

Lemma SFcompare_refl (f : spec_float) :
  f <> S754_nan -> SFcompare f f = Some Eq.
Proof.
  destruct f as [s|s| |s m e]; intros H; try (by destruct H);
    unfold SFcompare.
  - reflexivity.
  - by destruct s.
  - rewrite Z.compare_refl, Pos.compare_cont_refl. by destruct s.
Qed.

Lemma py_eq_refl_primitive (x : pyval) :
  is_primitive x = true -> is_nan x = false -> py_eq x x = true.
Proof.
  destruct x as [|b|n|f|s| |]; try discriminate; intros _ Hnan; simpl.
  - reflexivity.
  - apply Z.eqb_refl.
  - apply Z.eqb_refl.
  - unfold num_eqb, num_compare. rewrite SFcompare_refl; [reflexivity|].
    intros ->. discriminate.
  - by apply bool_decide_eq_true.
Qed.

Lemma validate_fresh_after_add
    (k : string) (p : loc) (x val : pyval) (max_age_in_sec : Z) (id_ : string)
    (uc uc' : user_context) (w : world) :
  is_none x = false ->
  exists w',
    PrimitiveClaim.add_to_payload_ k p x uc w = Ret p w' /\
    HasFreshValueSCV.validate
      (HasFreshValueSCV.init id_ (PrimitiveClaim.new k) val max_age_in_sec) p uc' w'
    = match int_div1000 (clock w (S (ticks w)) - clock w (ticks w)) with
      | Some age =>
          Ret (if num_ltb (NInt max_age_in_sec) (NFloat age)
               then expired_result (VFloat age) max_age_in_sec
               else if py_ne x val then wrong_value_result val x
               else valid_result) (tick w')
      | None => Raise OverflowError (tick w')
      end.
Proof.
  intros Hx.
  destruct (add_to_payload_reads k p x uc w) as (w' & Ha & Ht & Hc & Hh & Hv & _).
  exists w'. split; [exact Ha|].
  assert (Hlast : PrimitiveClaim.get_last_refetch_time k p uc' (tick w')
                  = Ret (VInt (clock w (ticks w))) (tick w')).
  { rewrite get_last_refetch_time_cases.
    change (heap (tick w') p) with (heap w' p). rewrite Hh. reflexivity. }
  assert (Hne : x <> VNone) by (intros ->; discriminate).
  assert (Hrun := HasFreshValueSCV_validate_run
                    (HasFreshValueSCV.init id_ (PrimitiveClaim.new k) val
                       max_age_in_sec)
                    p uc' w' w' (tick w') x (VInt (clock w (ticks w)))
                    {| SessionClaim.get_last_refetch_time :=
                         PrimitiveClaim.get_last_refetch_time k |}
                    (clock w (ticks w))
                    (Hv uc') Hne eq_refl Hlast (py_or_int _)).
  by rewrite Hc, Ht in Hrun.
Qed.

(** X5: a validator that expects the primitive value just written by
    [add_to_payload_], NaN apart, accepts it.  [has_value(x)] answers
    [{"isValid": True}].  [has_fresh_value(x, max_age)] answers "value does
    not exist" when [x] is [None]; otherwise it takes the age, the double
    nearest to the difference of the two clock readings divided by 1000:
    it answers [{"isValid": True}] when that age is not greater than
    [max_age], and raises [OverflowError] when the quotient is beyond the
    doubles. *)
Theorem add_then_validate_same_value
    (k : string) (p : loc) (x : pyval) (max_age_in_sec : Z)
    (id_ id_' : option string) (uc uc' : user_context) (w : world) :
  is_primitive x = true ->
  is_nan x = false ->
  exists w',
    PrimitiveClaim.add_to_payload_ k p x uc w = Ret p w' /\
    HasValueSCV.validate
      (PrimitiveClaimValidators.has_value (validators k) x id_) p uc' w'
      = Ret valid_result w' /\
    let has_fresh_value :=
      PrimitiveClaimValidators.has_fresh_value (validators k) x max_age_in_sec id_' in
    (is_none x = false ->
     match int_div1000 (clock w (S (ticks w)) - clock w (ticks w)) with
     | Some age =>
         num_ltb (NInt max_age_in_sec) (NFloat age) = false ->
         HasFreshValueSCV.validate has_fresh_value p uc' w'
           = Ret valid_result (tick w')
     | None =>
         HasFreshValueSCV.validate has_fresh_value p uc' w'
           = Raise OverflowError (tick w')
     end) /\
    (is_none x = true ->
     HasFreshValueSCV.validate has_fresh_value p uc' w'
       = Ret (missing_result x x) w').
Proof.
  intros Hprim Hnan.
  destruct (add_to_payload_reads k p x uc w) as (w' & Ha & _ & _ & _ & Hv & _).
  exists w'. split; [exact Ha|]. split; [|split].
  - unfold HasValueSCV.validate, mbind, M_bind, bind. simpl.
    by rewrite Hv, py_eq_refl_primitive.
  - intros Hx.
    destruct (validate_fresh_after_add k p x x max_age_in_sec
                (str_or id_' (k +:+ "-fresh-val")) uc uc' w Hx)
      as (w1 & Ha1 & Hval).
    rewrite Ha in Ha1. injection Ha1 as <-.
    unfold PrimitiveClaimValidators.has_fresh_value.
    cbn [PrimitiveClaimValidators.claim validators SessionClaim.key
         PrimitiveClaim.new].
    rewrite Hval.
    destruct (int_div1000 _) as [age|]; [|reflexivity].
    intros ->. unfold py_ne. by rewrite py_eq_refl_primitive.
  - intros Hx.
    unfold HasFreshValueSCV.validate, mbind, M_bind, bind. simpl.
    by rewrite Hv, Hx.
Qed.

(** X6: right after [add_to_payload_] wrote a value other than [None] at
    the clock reading [t0], [has_fresh_value]'s [validate] takes the next
    reading [t1] and the age, the double nearest to [(t1 - t0) / 1000].  It
    raises [OverflowError] when that quotient is beyond the doubles.
    Otherwise it reports "expired", with that age, exactly when the age is
    greater than [max_age_in_sec], whatever the value; and if not, it
    compares the value written with the expected one. *)
Theorem add_then_validate_fresh
    (k : string) (p : loc) (x val : pyval) (max_age_in_sec : Z)
    (id_ : option string) (uc uc' : user_context) (w : world) :
  is_none x = false ->
  let t0 := clock w (ticks w) in
  let t1 := clock w (S (ticks w)) in
  let self :=
    PrimitiveClaimValidators.has_fresh_value (validators k) val max_age_in_sec id_ in
  exists w',
    PrimitiveClaim.add_to_payload_ k p x uc w = Ret p w' /\
    match int_div1000 (t1 - t0) with
    | None => HasFreshValueSCV.validate self p uc' w' = Raise OverflowError (tick w')
    | Some age =>
        HasFreshValueSCV.validate self p uc' w'
          = Ret (if num_ltb (NInt max_age_in_sec) (NFloat age)
                 then expired_result (VFloat age) max_age_in_sec
                 else if py_eq x val then valid_result
                 else wrong_value_result val x) (tick w')
    end.
Proof.
  intros Hx t0 t1 self.
  destruct (validate_fresh_after_add k p x val max_age_in_sec
              (str_or id_ (k +:+ "-fresh-val")) uc uc' w Hx)
    as (w' & Ha & Hval).
  exists w'. split; [exact Ha|].
  unfold self, PrimitiveClaimValidators.has_fresh_value.
  cbn [PrimitiveClaimValidators.claim validators SessionClaim.key
       PrimitiveClaim.new].
  rewrite Hval. fold t0 t1.
  destruct (int_div1000 (t1 - t0)) as [age|]; [|reflexivity].
  unfold py_ne. by destruct (num_ltb _ _), (py_eq x val).
Qed.

(** ** Refetching *)

(** X8: [has_fresh_value]'s [should_refetch] on a [PrimitiveClaim] raises
    in exactly three situations: [AttributeError] when the entry under the
    key is not a dict; [KeyError], before the clock is read, when the record
    has a value other than [None] but no ["t"]; [TypeError], after the clock
    is read, when that record's ["t"] is not a number. *)
Theorem HasFreshValueSCV_should_refetch_raises_iff
    (k id_ : string) (val : pyval) (max_age_in_sec : Z)
    (p : loc) (uc : user_context) (w : world) (e : exn) (w' : world) :
  HasFreshValueSCV.should_refetch
    (HasFreshValueSCV.init id_ (PrimitiveClaim.new k) val max_age_in_sec) p uc w
    = Raise e w' <->
  (e = AttributeError /\ w' = w /\
   exists x, heap w p !! k = Some x /\ is_dict x = false) \/
  (exists entry : JSONObject,
     heap w p !! k = Some (VDict entry) /\
     is_none (default VNone (entry !! "v"%string)) = false /\
     ((e = KeyError /\ w' = w /\ entry !! "t"%string = None) \/
      (e = TypeError /\ w' = tick w /\
       exists t, entry !! "t"%string = Some t /\ as_number t = None))).
Proof.
  unfold HasFreshValueSCV.should_refetch, mbind, M_bind, bind. simpl.
  rewrite get_value_cases. unfold dict_getitem.
  destruct (heap w p !! k) as [x|] eqn:He.
  2:{ simpl. split; [discriminate|].
      intros [(_ & _ & ? & ? & _)|(? & ? & _)]; discriminate. }
  destruct x as [| | | | | |entry];
    try (split;
         [intros H; injection H as <- <-; left; repeat split; eauto
         |intros [(-> & -> & _)|(? & ? & _)]; [reflexivity|discriminate]]).
  destruct (is_none (default VNone (entry !! "v"%string))) eqn:Hx.
  { unfold mret, M_ret, ret. split; [discriminate|].
    intros [(_ & _ & ? & Hy & Hd)|(d & Hd & Hn & _)].
    - injection Hy as <-. discriminate.
    - injection Hd as <-. congruence. }
  simpl. rewrite He. simpl. unfold get_timestamp_ms, py_lt, ret, raise.
  destruct (entry !! "t"%string) as [t|] eqn:Ht.
  - destruct (as_number t) as [q|] eqn:Hq.
    + split; [discriminate|].
      intros [(_ & _ & ? & Hy & Hd)|(d & Hd & _ & [(_ & _ & Hn)|(_ & _ & t' & Ht' & Hn)])].
      * injection Hy as <-. discriminate.
      * injection Hd as <-. congruence.
      * injection Hd as <-. rewrite Ht in Ht'. injection Ht' as <-. congruence.
    + split.
      * intros H. injection H as <- <-. right. exists entry.
        repeat split; try done. right. repeat split. by exists t.
      * intros [(_ & _ & ? & Hy & Hd)|(d & Hd & _ & [(_ & _ & Hn)|(-> & -> & _)])].
        -- injection Hy as <-. discriminate.
        -- injection Hd as <-. congruence.
        -- reflexivity.
  - split.
    + intros H. injection H as <- <-. right. exists entry.
      repeat split; try done. by left.
    + intros [(_ & _ & ? & Hy & Hd)|(d & Hd & _ & [(-> & -> & _)|(_ & _ & t' & Ht' & _)])].
      * injection Hy as <-. discriminate.
      * reflexivity.
      * injection Hd as <-. congruence.
Qed.

(** The part of [validate] that follows the reading of the clock: it raises
    [TypeError] when the last refetch time is truthy and not a number,
    [OverflowError] when the age overflows, and returns a result
    otherwise. *)
Lemma validate_fresh_record_outcome
    (k id_ : string) (val : pyval) (max_age_in_sec : Z)
    (p : loc) (uc : user_context) (w : world) (entry : JSONObject) :
  heap w p !! k = Some (VDict entry) ->
  is_none (default VNone (entry !! "v"%string)) = false ->
  let self := HasFreshValueSCV.init id_ (PrimitiveClaim.new k) val max_age_in_sec in
  let last := default VNone (entry !! "t"%string) in
  let overflows := age_overflows (clock w (ticks w)) (py_or last (VInt 0)) in
  (HasFreshValueSCV.validate self p uc w = Raise TypeError (tick w) /\
   bad_time last = true /\ overflows = false) \/
  (HasFreshValueSCV.validate self p uc w = Raise OverflowError (tick w) /\
   bad_time last = false /\ overflows = true) \/
  (exists r, HasFreshValueSCV.validate self p uc w = Ret r (tick w) /\
             bad_time last = false /\ overflows = false).
Proof.
  intros He Hx self last overflows.
  unfold overflows, self, HasFreshValueSCV.validate, mbind, M_bind, bind.
  cbn [HasFreshValueSCV.claim HasFreshValueSCV.val HasFreshValueSCV.max_age_in_sec
       SessionClaim.get_value_from_payload SessionClaim.as_PrimitiveClaim
       SessionClaim.get_last_refetch_time PrimitiveClaim.new].
  rewrite get_value_cases, He, Hx. unfold get_timestamp_ms.
  rewrite get_last_refetch_time_cases.
  change (heap (tick w) p) with (heap w p). rewrite He. fold last.
  unfold py_or, bad_time, age_overflows.
  destruct last as [|[]|n|f|s|l|d]; cbn [truthy as_number];
    repeat (unfold py_rsub, py_div1000, py_gt, as_number, ret, raise,
              mret, M_ret;
            cbn [negb];
            try match goal with
                | |- context [match ?c with _ => _ end] =>
                    lazymatch c with
                    | context [match _ with _ => _ end] => fail
                    | _ => destruct c eqn:?
                    end
                end);
    solve [ left; repeat split; reflexivity
          | right; left; repeat split; reflexivity
          | right; right; eexists; repeat split; reflexivity ].
Qed.

Lemma validate_fresh_early
    (k id_ : string) (val : pyval) (max_age_in_sec : Z)
    (p : loc) (uc : user_context) (w : world) :
  let self := HasFreshValueSCV.init id_ (PrimitiveClaim.new k) val max_age_in_sec in
  match heap w p !! k with
  | None => HasFreshValueSCV.validate self p uc w = Ret (missing_result val VNone) w
  | Some (VDict entry) =>
      is_none (default VNone (entry !! "v"%string)) = true ->
      HasFreshValueSCV.validate self p uc w
        = Ret (missing_result val (default VNone (entry !! "v"%string))) w
  | Some _ => HasFreshValueSCV.validate self p uc w = Raise AttributeError w
  end.
Proof.
  intros self.
  unfold self, HasFreshValueSCV.validate, mbind, M_bind, bind. simpl.
  rewrite get_value_cases.
  destruct (heap w p !! k) as [[]|]; try reflexivity.
  by intros ->.
Qed.

(** X9: [has_fresh_value]'s [validate] on a [PrimitiveClaim] raises in
    exactly three situations: [AttributeError], with the clock untouched,
    when the entry under the key is not a dict; and, after the clock is
    read, for a record with a value other than [None], [TypeError] when its
    ["t"] is truthy and not a number, and [OverflowError] when its ["t"],
    or [0] in place of a falsy one, is a number and the age overflows.  On
    every other payload it returns a result. *)
Theorem HasFreshValueSCV_validate_raises_iff
    (k id_ : string) (val : pyval) (max_age_in_sec : Z)
    (p : loc) (uc : user_context) (w : world) (e : exn) (w' : world) :
  HasFreshValueSCV.validate
    (HasFreshValueSCV.init id_ (PrimitiveClaim.new k) val max_age_in_sec) p uc w
    = Raise e w' <->
  (e = AttributeError /\ w' = w /\
   exists x, heap w p !! k = Some x /\ is_dict x = false) \/
  (w' = tick w /\
   exists entry : JSONObject,
     heap w p !! k = Some (VDict entry) /\
     is_none (default VNone (entry !! "v"%string)) = false /\
     let last := default VNone (entry !! "t"%string) in
     (e = TypeError /\ bad_time last = true) \/
     (e = OverflowError /\ bad_time last = false /\
      age_overflows (clock w (ticks w)) (py_or last (VInt 0)) = true)).
Proof.
  assert (Hearly := validate_fresh_early k id_ val max_age_in_sec p uc w).
  assert (Hrec := validate_fresh_record_outcome k id_ val max_age_in_sec p uc w).
  cbv zeta in Hearly, Hrec.
  destruct (heap w p !! k) as [x|] eqn:He.
  2:{ rewrite Hearly. split; [discriminate|].
      intros [(_ & _ & ? & ? & _)|(_ & ? & ? & _)]; discriminate. }
  destruct x as [| | | | | |entry];
    try (rewrite Hearly; split;
         [intros H; injection H as <- <-; left; repeat split; eauto
         |intros [(-> & -> & _)|(_ & ? & ? & _)];
            [reflexivity|discriminate]]).
  destruct (is_none (default VNone (entry !! "v"%string))) eqn:Hx.
  { rewrite (Hearly eq_refl). split; [discriminate|].
    intros [(_ & _ & ? & Hy & Hd)|(_ & d & Hd & Hn & _)].
    - injection Hy as <-. discriminate.
    - injection Hd as <-. congruence. }
  destruct (Hrec entry eq_refl Hx)
    as [(Hr & Hb & Ho)|[(Hr & Hb & Ho)|(r & Hr & Hb & Ho)]]; rewrite Hr.
  - split.
    + intros H. injection H as <- <-. right. split; [reflexivity|].
      exists entry. split; [reflexivity|]. split; [exact Hx|]. left. by split.
    + intros [(_ & _ & ? & Hy & Hd)|(-> & d & Hd & _ & Hcase)].
      * injection Hy as <-. discriminate.
      * injection Hd as <-. cbv zeta in Hcase.
        destruct Hcase as [[-> _]|(_ & Hb' & _)]; [reflexivity|congruence].
  - split.
    + intros H. injection H as <- <-. right. split; [reflexivity|].
      exists entry. split; [reflexivity|]. split; [exact Hx|]. right.
      by repeat split.
    + intros [(_ & _ & ? & Hy & Hd)|(-> & d & Hd & _ & Hcase)].
      * injection Hy as <-. discriminate.
      * injection Hd as <-. cbv zeta in Hcase.
        destruct Hcase as [[_ Hb']|(-> & _)]; [congruence|reflexivity].
  - split; [discriminate|].
    intros [(_ & _ & ? & Hy & Hd)|(_ & d & Hd & _ & Hcase)].
    + injection Hy as <-. discriminate.
    + injection Hd as <-. cbv zeta in Hcase.
      destruct Hcase as [[_ Hb']|(_ & _ & Ho')]; congruence.
Qed.

(** ** What the validators leave alone, and what they return *)

Ltac py_crunch :=
  repeat (unfold py_get, py_getitem, py_lt, py_rsub, py_div1000, py_gt,
            dict_getitem, dict_get, get_timestamp_ms, ret, raise,
            mret, M_ret, mbind, M_bind, bind;
          simpl;
          rewrite ?get_value_cases, ?get_last_refetch_time_cases;
          try match goal with
              | |- context [match ?c with _ => _ end] =>
                  lazymatch c with
                  | context [match _ with _ => _ end] => fail
                  | _ => destruct c eqn:?
                  end
              end).

(** X10: the validators made for a [PrimitiveClaim] only read.  Whether
    they return or raise, [has_value]'s two methods leave the world exactly
    as it was, and [has_fresh_value]'s two methods change nothing but the
    count of clock readings, of which they take at most one. *)
Theorem validators_only_read
    (k : string) (val : pyval) (max_age_in_sec : Z) (id_ id_' : option string)
    (p : loc) (uc : user_context) (w : world) :
  let hv := PrimitiveClaimValidators.has_value (validators k) val id_ in
  let hf :=
    PrimitiveClaimValidators.has_fresh_value (validators k) val max_age_in_sec id_' in
  world_after (HasValueSCV.should_refetch hv p uc w) = w /\
  world_after (HasValueSCV.validate hv p uc w) = w /\
  (world_after (HasFreshValueSCV.should_refetch hf p uc w) = w \/
   world_after (HasFreshValueSCV.should_refetch hf p uc w) = tick w) /\
  (world_after (HasFreshValueSCV.validate hf p uc w) = w \/
   world_after (HasFreshValueSCV.validate hf p uc w) = tick w).
Proof.
  intros hv hf. repeat split.
  - unfold hv, HasValueSCV.should_refetch.
    py_crunch; reflexivity.
  - unfold hv, HasValueSCV.validate.
    py_crunch; reflexivity.
  - unfold hf, HasFreshValueSCV.should_refetch.
    py_crunch; auto.
  - unfold hf, HasFreshValueSCV.validate, py_or.
    py_crunch; auto.
Qed.

Ltac validation_result_tac :=
  first
    [ left; split; reflexivity
    | right; split; [reflexivity|];
      eexists _, _; split; [reflexivity|]; split; [reflexivity|];
      set_solver ].

(** X11: whatever the claim object, a result returned by either [validate]
    is well formed: it has ["isValid"], with no ["reason"] when it is
    [True], and when it is [False] with a ["reason"] whose ["message"] is
    "value does not exist", "expired" or "wrong value". *)
Theorem validate_returns_validation_result :
  (forall (self : HasValueSCV.t) (p : loc) (uc : user_context) (w : world),
     returns (HasValueSCV.validate self p uc w) validation_result) /\
  (forall (self : HasFreshValueSCV.t) (p : loc) (uc : user_context) (w : world),
     returns (HasFreshValueSCV.validate self p uc w) validation_result).
Proof.
  split; intros self p uc w.
  - unfold HasValueSCV.validate, mbind, M_bind, bind.
    destruct (SessionClaim.get_value_from_payload _ p uc w) as [x w1|]; [|exact I].
    destruct (py_eq x _); simpl; validation_result_tac.
  - unfold HasFreshValueSCV.validate, mbind, M_bind, bind.
    destruct (SessionClaim.get_value_from_payload _ p uc w) as [x w1|]; [|exact I].
    destruct (is_none x); [simpl; validation_result_tac|].
    destruct (SessionClaim.as_PrimitiveClaim _) as [pm|]; [|exact I].
    unfold get_timestamp_ms.
    destruct (SessionClaim.get_last_refetch_time pm p uc (tick w1)) as [last w2|];
      [|exact I].
    destruct (py_or last (VInt 0));
      repeat (unfold py_rsub, py_div1000, py_gt, as_number, ret, raise,
                mret, M_ret;
              cbn [returns];
              try match goal with
                  | |- context [match ?c with _ => _ end] =>
                      lazymatch c with
                      | context [match _ with _ => _ end] => fail
                      | _ => destruct c eqn:?
                      end
                  end);
      first [exact I | validation_result_tac].
Qed.

(** ** The factory *)

Lemma string_length_app (s1 s2 : string) :
  String.length (s1 +:+ s2) = (String.length s1 + String.length s2)%nat.
Proof. induction s1 as [|c s1 IH]; simpl; [reflexivity|by rewrite IH]. Qed.

(** X12: the two default ids never coincide, so the validators that
    [has_value] and [has_fresh_value] make for one claim without an id can
    be told apart. *)
Theorem default_ids_differ
    (self : PrimitiveClaimValidators.t) (val val' : pyval) (max_age_in_sec : Z) :
  HasValueSCV.id (PrimitiveClaimValidators.has_value self val None) <>
  HasFreshValueSCV.id
    (PrimitiveClaimValidators.has_fresh_value self val' max_age_in_sec None).
Proof.
  simpl. intros H. apply (f_equal String.length) in H.
  rewrite string_length_app in H. simpl in H. lia.
Qed.

(** X13: on a payload without the claim's key, the two validators treat an
    expected [None] differently: [has_value(None)] answers
    [{"isValid": True}], while [has_fresh_value(None, max_age)] answers
    "value does not exist"; for any other expected value [has_value]
    answers "wrong value" with the actual value [None].  Neither reads the
    clock. *)
Theorem validate_absent_claim
    (k : string) (val : pyval) (max_age_in_sec : Z) (id_ id_' : option string)
    (p : loc) (uc : user_context) (w : world) :
  heap w p !! k = None ->
  HasValueSCV.validate
    (PrimitiveClaimValidators.has_value (validators k) VNone id_) p uc w
    = Ret valid_result w /\
  HasFreshValueSCV.validate
    (PrimitiveClaimValidators.has_fresh_value (validators k) VNone
       max_age_in_sec id_') p uc w
    = Ret (missing_result VNone VNone) w /\
  HasFreshValueSCV.validate
    (PrimitiveClaimValidators.has_fresh_value (validators k) val
       max_age_in_sec id_') p uc w
    = Ret (missing_result val VNone) w /\
  (is_none val = false ->
   HasValueSCV.validate
     (PrimitiveClaimValidators.has_value (validators k) val id_) p uc w
     = Ret (wrong_value_result val VNone) w).
Proof.
  intros Hk.
  unfold HasValueSCV.validate, HasFreshValueSCV.validate, mbind, M_bind, bind.
  simpl. rewrite get_value_absent by exact Hk. simpl.
  repeat split. intros Hv. by destruct val.
Qed.

(** * The GitLab provider *)

Lemma nodup_all_equal (s : string) (l : list string) :
  NoDup l -> (forall x, x ∈ l <-> x = s) -> l = [s].
Proof.
  intros Hnd Hl. destruct l as [|a [|b l]].
  - assert (H : s ∈ @nil string) by (apply Hl; reflexivity).
    by apply elem_of_nil in H.
  - f_equal. apply Hl, elem_of_cons. by left.
  - assert (Ha : a = s) by (apply Hl, elem_of_cons; by left).
    assert (Hb : b = s).
    { apply Hl. apply elem_of_cons. right. apply elem_of_cons. by left. }
    subst a b. apply NoDup_cons_1_1 in Hnd. destruct Hnd.
    apply elem_of_cons. by left.
Qed.

(** X14: the params of the authorisation redirect.  Every entry of the
    [authorisation_redirect] the provider was given is passed on as it is,
    also under "scope", "response_type" and "client_id", where it replaces
    the provider's own entry; those three keys otherwise hold the scopes
    joined by spaces, ["code"] and the client id; and the provider adds no
    other key, so the client secret is never among the params unless the
    caller put it there. *)
Theorem GitLab_redirect_params
    (BaseRequest : Type) (self : GitLab.t BaseRequest) (uc : user_context) :
  let api := GitLab.get_authorisation_redirect_api_info self uc in
  let custom := GitLab.authorisation_redirect_params self in
  GitLab.redirect_url api = GitLab.authorisation_redirect_url self /\
  (forall k v, custom !! k = Some v -> GitLab.redirect_params api !! k = Some v) /\
  (custom !! "scope"%string = None ->
   GitLab.redirect_params api !! "scope"%string
     = Some (GitLab.Str (String.concat " " (GitLab.scopes self)))) /\
  (custom !! "response_type"%string = None ->
   GitLab.redirect_params api !! "response_type"%string = Some (GitLab.Str "code")) /\
  (custom !! "client_id"%string = None ->
   GitLab.redirect_params api !! "client_id"%string
     = Some (GitLab.Str (GitLab.client_id self))) /\
  (forall k : string,
     k ∉ ["scope"; "response_type"; "client_id"]%string ->
     GitLab.redirect_params api !! k = custom !! k).
Proof.
  intros api custom. unfold api, GitLab.get_authorisation_redirect_api_info.
  simpl. fold custom.
  split; [reflexivity|]. split; [|split; [|split; [|split]]].
  - intros k v H. by apply lookup_union_Some_l.
  - intros H. by rewrite lookup_union_r.
  - intros H. by rewrite lookup_union_r.
  - intros H. by rewrite lookup_union_r.
  - intros k Hk. apply lookup_union_l.
    unfold GitLab.redirect_defaults. simpl.
    assert (Hs : k <> "scope"%string)
      by (intros ->; apply Hk; repeat constructor).
    assert (Hr : k <> "response_type"%string)
      by (intros ->; apply Hk; repeat constructor).
    assert (Hc : k <> "client_id"%string)
      by (intros ->; apply Hk; repeat constructor).
    rewrite !lookup_insert_ne by done. apply lookup_empty.
Qed.

(** X15: the scopes a [GitLab] object keeps.  Construction fails exactly
    when the base url cannot be normalised.  Otherwise, in whatever order
    [list(set(...))] enumerates a set, the scopes have no duplicates and are
    the strings of the [scope] given, or of [["read_user"]] when it is
    [None]: they are [["read_user"]] for [None], empty for an empty list,
    which is not replaced by the default, and [[s]] for a list that repeats
    one scope [s]. *)
Theorem GitLab_init_scopes
    (BaseRequest : Type)
    (list_of_set : gset string -> list string)
    (normalise : string -> option string)
    (client_id client_secret : string)
    (scope : option (list string))
    (authorisation_redirect :
       option (gmap string (GitLab.redirect_param BaseRequest)))
    (gitlab_base_url : string) (is_default : bool) :
  (forall s, list_of_set s ≡ₚ elements s) ->
  let made :=
    GitLab.init list_of_set normalise client_id client_secret scope
      authorisation_redirect gitlab_base_url is_default in
  match normalise gitlab_base_url with
  | None => made = None
  | Some base =>
      exists g,
        made = Some g /\
        NoDup (GitLab.scopes g) /\
        (forall x, x ∈ GitLab.scopes g <-> x ∈ default ["read_user"%string] scope) /\
        (scope = None -> GitLab.scopes g = ["read_user"%string]) /\
        (scope = Some [] -> GitLab.scopes g = []) /\
        (forall (s : string) (n : nat),
           scope = Some (replicate (S n) s) -> GitLab.scopes g = [s]) /\
        GitLab.access_token_api_url g = base +:+ "/oauth/token" /\
        GitLab.authorisation_redirect_url g = base +:+ "/oauth/authorize"
  end.
Proof.
  intros Hperm made. unfold made, GitLab.init.
  destruct (normalise gitlab_base_url) as [base|]; [|reflexivity].
  eexists. split; [reflexivity|]. simpl.
  set (l := match scope with Some l => l | None => ["read_user"%string] end).
  assert (Hl : l = default ["read_user"%string] scope) by (by destruct scope).
  assert (Hnd : NoDup (list_of_set (list_to_set l))).
  { rewrite Hperm. apply NoDup_elements. }
  assert (Hin : forall x, x ∈ list_of_set (list_to_set l) <-> x ∈ l).
  { intros x. rewrite Hperm, elem_of_elements. apply elem_of_list_to_set. }
  split; [exact Hnd|]. split; [by rewrite <- Hl|].
  split; [|split; [|split; [|split; reflexivity]]].
  - intros ->. apply nodup_all_equal; [exact Hnd|].
    intros x. rewrite Hin. unfold l. apply list_elem_of_singleton.
  - intros ->. unfold l in *. apply elem_of_nil_inv.
    intros x Hx. apply Hin in Hx. by apply elem_of_nil in Hx.
  - intros s n ->. apply nodup_all_equal; [exact Hnd|].
    intros x. rewrite Hin. unfold l.
    rewrite (elem_of_replicate (S n) s x). split.
    + by intros [-> _].
    + intros ->. split; [reflexivity|lia].
Qed.

(** X16: a [GitLab] object made without [scope] and without
    [authorisation_redirect] asks for the single scope ["read_user"]: its
    authorisation redirect goes to the normalised base url followed by
    ["/oauth/authorize"] with exactly the params "scope", "response_type"
    and "client_id", and its access-token request goes to the same base
    followed by ["/oauth/token"], carrying the client id and secret, the
    code and the redirect uri. *)
Theorem GitLab_default_construction
    (BaseRequest : Type)
    (list_of_set : gset string -> list string)
    (normalise : string -> option string)
    (client_id client_secret gitlab_base_url base : string) (is_default : bool)
    (redirect_uri code : string) (uc : user_context) :
  (forall s, list_of_set s ≡ₚ elements s) ->
  normalise gitlab_base_url = Some base ->
  exists g : GitLab.t BaseRequest,
    GitLab.init list_of_set normalise client_id client_secret None None
      gitlab_base_url is_default = Some g /\
    GitLab.get_authorisation_redirect_api_info g uc =
      {| GitLab.redirect_url := base +:+ "/oauth/authorize";
         GitLab.redirect_params :=
           list_to_map [("scope", GitLab.Str "read_user");
                        ("response_type", GitLab.Str "code");
                        ("client_id", GitLab.Str client_id)]%string |} /\
    GitLab.get_access_token_api_info g redirect_uri code uc =
      {| GitLab.token_url := base +:+ "/oauth/token";
         GitLab.token_params :=
           list_to_map [("client_id", client_id);
                        ("client_secret", client_secret);
                        ("grant_type", "authorization_code");
                        ("code", code);
                        ("redirect_uri", redirect_uri)]%string |} /\
    GitLab.get_client_id g uc = client_id.
Proof.
  intros Hperm Hbase. unfold GitLab.init. rewrite Hbase.
  eexists. split; [reflexivity|].
  assert (Hs : list_of_set (list_to_set ["read_user"%string])
               = ["read_user"%string]).
  { apply nodup_all_equal.
    - rewrite Hperm. apply NoDup_elements.
    - intros x. rewrite Hperm, elem_of_elements, elem_of_list_to_set.
      apply list_elem_of_singleton. }
  split; [|split; reflexivity].
  unfold GitLab.get_authorisation_redirect_api_info, GitLab.redirect_defaults.
  cbn [GitLab.scopes GitLab.client_id GitLab.authorisation_redirect_params
       GitLab.authorisation_redirect_url].
  rewrite Hs, (left_id_L ∅ (∪)). reflexivity.
Qed.

(** ** Instances *)

Lemma add_then_validate_same_value_witness :
  is_primitive (VInt 5) = true /\
  is_nan (VInt 5) = false /\
  exists w',
    PrimitiveClaim.add_to_payload_ "k" 0%nat (VInt 5) None (world_of ∅ 0)
      = Ret 0%nat w' /\
    HasValueSCV.validate
      (PrimitiveClaimValidators.has_value (validators "k") (VInt 5) None)
      0%nat None w' = Ret valid_result w'.
Proof.
  split; [reflexivity|]. split; [reflexivity|].
  destruct (add_then_validate_same_value "k" 0%nat (VInt 5) 100 None None
              None None (world_of ∅ 0) eq_refl eq_refl) as (w' & Ha & Hv & _).
  exists w'. split; [exact Ha|exact Hv].
Defined.

Lemma add_then_validate_fresh_witness :
  is_none (VInt 5) = false /\
  exists w',
    PrimitiveClaim.add_to_payload_ "k" 0%nat (VInt 5) None (world_of ∅ 0)
      = Ret 0%nat w' /\
    HasFreshValueSCV.validate
      (PrimitiveClaimValidators.has_fresh_value (validators "k") (VInt 5) 100 None)
      0%nat None w' = Ret valid_result (tick w').
Proof.
  split; [reflexivity|].
  destruct (add_then_validate_fresh "k" 0%nat (VInt 5) (VInt 5) 100 None
              None None (world_of ∅ 0) eq_refl) as (w' & Ha & Hv).
  exists w'. split; [exact Ha|].
  cbv zeta in Hv.
  change (int_div1000 (clock (world_of ∅ 0) (S (ticks (world_of ∅ 0)))
                       - clock (world_of ∅ 0) (ticks (world_of ∅ 0))))
    with (Some (S754_zero false)) in Hv.
  exact Hv.
Defined.

Lemma validate_absent_claim_witness :
  heap (world_of ∅ 0) 0%nat !! "k"%string = None /\
  HasValueSCV.validate
    (PrimitiveClaimValidators.has_value (validators "k") VNone None)
    0%nat None (world_of ∅ 0) = Ret valid_result (world_of ∅ 0).
Proof.
  split; [reflexivity|].
  apply (validate_absent_claim "k" VNone 100 None None 0%nat None
           (world_of ∅ 0)).
  reflexivity.
Defined.

Lemma GitLab_init_scopes_witness :
  (forall s : gset string, elements s ≡ₚ elements s) /\
  exists g : GitLab.t unit,
    GitLab.init elements Some "id" "secret" (Some ["api"; "api"]%string) None
      "https://gitlab.com" false = Some g /\
    GitLab.scopes g = ["api"%string].
Proof.
  split; [reflexivity|].
  assert (H := GitLab_init_scopes unit elements Some "id" "secret"
                 (Some ["api"; "api"]%string) None "https://gitlab.com" false
                 (fun s => reflexivity (elements s))).
  simpl in H. destruct H as (g & Hg & _ & _ & _ & _ & Hrep & _).
  exists g. split; [exact Hg|]. exact (Hrep "api"%string 1%nat eq_refl).
Defined.

Lemma GitLab_default_construction_witness :
  (forall s : gset string, elements s ≡ₚ elements s) /\
  (Some "https://gitlab.com" = Some "https://gitlab.com")%string /\
  exists g : GitLab.t unit,
    GitLab.init elements Some "id" "secret" None None "https://gitlab.com" false
      = Some g /\
    GitLab.get_client_id g None = "id"%string.
Proof.
  split; [reflexivity|]. split; [reflexivity|].
  destruct (GitLab_default_construction unit elements Some "id" "secret"
              "https://gitlab.com" "https://gitlab.com" false "uri" "code" None
              (fun s => reflexivity (elements s)) eq_refl)
    as (g & Hg & _ & _ & Hc).
  exists g. split; [exact Hg|exact Hc].
Defined.
